(** * Alive Gallery: the record store, the id allocator and the derived views

    A shallow embedding of [app.py] (a Flask journaling application whose
    whole state is the file [entries.json]) together with the properties
    its specification states about it.

    Conventions of the embedding.
    - An entry is the Python dict of the source seen through the data
      model of the specification: every key of the model is a field that
      may be absent ([None]), since records written by older versions of
      the program lack the later keys, and a key that is there holds a
      value of the type the model gives it.  [dream_progress] holds an
      integer or a string, as the source stores both.
    - A Python [str] is a [string]; one [ascii] stands for one character,
      so the embedding speaks about texts of one-byte characters.
    - The data file is seen through what [os.path.exists] and [json.load]
      make of it: it is absent, or its text raises [JSONDecodeError], or it
      decodes to a list of records.  [json.dump] followed by [json.load] is
      taken to give back the list that was written.
    - A request handler is a computation in a state monad over the file;
      the clock and the submitted form are arguments. *)

From Stdlib Require Import ZArith String Ascii Sorting.Sorted OrderedTypeEx.
From stdpp Require Import base option list strings sorting gmap fin_maps.

Local Open Scope Z_scope.

(** ** Python strings *)

Module PyStr.

(** [str.lower] on the letters A-Z. *)
Definition lower_char (c : ascii) : ascii :=
  let n := nat_of_ascii c in
  if ((65 <=? n) && (n <=? 90))%nat then ascii_of_nat (n + 32) else c.

Fixpoint lower (s : string) : string :=
  match s with
  | EmptyString => EmptyString
  | String c s' => String (lower_char c) (lower s')
  end.

(** The characters [str.strip] drops: tab, line feed, vertical tab, form
    feed, carriage return, the four separators 0x1c-0x1f and the space. *)
Definition is_space (c : ascii) : bool :=
  let n := nat_of_ascii c in
  (((9 <=? n) && (n <=? 13)) || ((28 <=? n) && (n <=? 32)))%nat.

(** The characters [int] skips around a literal: the same without the
    four separators. *)
Definition is_int_space (c : ascii) : bool :=
  let n := nat_of_ascii c in
  (((9 <=? n) && (n <=? 13)) || (n =? 32))%nat.

Fixpoint lstrip (blank : ascii -> bool) (s : string) : string :=
  match s with
  | String c s' => if blank c then lstrip blank s' else s
  | EmptyString => EmptyString
  end.

(** Drops the blanks at the end: a blank is kept only when something
    that is kept follows it. *)
Fixpoint rstrip (blank : ascii -> bool) (s : string) : string :=
  match s with
  | EmptyString => EmptyString
  | String c s' =>
      match rstrip blank s' with
      | EmptyString => if blank c then EmptyString else String c EmptyString
      | r => String c r
      end
  end.

(** [s.strip()] *)
Definition strip (s : string) : string := rstrip is_space (lstrip is_space s).

(** [s.split(sep)] for a one-character separator: the pieces between the
    separators, the empty ones included. *)
Fixpoint split (sep : ascii) (s : string) : list string :=
  match s with
  | EmptyString => [EmptyString]
  | String c s' =>
      if Ascii.eqb c sep then EmptyString :: split sep s'
      else match split sep s' with
           | p :: ps => String c p :: ps
           | [] => [String c EmptyString]
           end
  end.

(** [sep.join(parts)] *)
Fixpoint join (sep : string) (parts : list string) : string :=
  match parts with
  | [] => EmptyString
  | [p] => p
  | p :: ps => p +:+ sep +:+ join sep ps
  end.

(** Truth value of a string: the empty string is false. *)
Definition truthy (s : string) : bool :=
  match s with EmptyString => false | _ => true end.

(** [a or b] on strings. *)
Definition or_else (a b : string) : string := if truthy a then a else b.

(** [s[:n]] and [s[i:j]] *)
Definition slice (i j : nat) (s : string) : string := substring i (j - i) s.

Definition digit (c : ascii) : option Z :=
  let n := nat_of_ascii c in
  if ((48 <=? n) && (n <=? 57))%nat then Some (Z.of_nat (n - 48)) else None.

(** The digits of a decimal literal as [int] reads them: at least one
    digit, and a single underscore allowed between two digits.  [acc] is
    the value read so far and [after_digit] tells whether the previous
    character was a digit. *)
Fixpoint digits (acc : Z) (after_digit : bool) (s : string) : option Z :=
  match s with
  | EmptyString => if after_digit then Some acc else None
  | String c s' =>
      match digit c with
      | Some d => digits (10 * acc + d) true s'
      | None =>
          if Ascii.eqb c "_" && after_digit
          then match s' with
               | String c' _ => if digit c' is Some _ then digits acc false s' else None
               | EmptyString => None
               end
          else None
      end
  end.

(** [int(s)] in base ten: blanks around the literal are dropped, one
    sign is allowed; [None] stands for [ValueError]. *)
Definition int (s : string) : option Z :=
  match rstrip is_int_space (lstrip is_int_space s) with
  | String "+" r => digits 0 false r
  | String "-" r => Z.opp <$> digits 0 false r
  | r => digits 0 false r
  end.

End PyStr.

(** ** The data model *)

(** [dream_progress] is written as an integer by the reflection handler and
    by the defaulting at load, and as the submitted text by the forms. *)
Inductive progress :=
| PInt (n : Z)
| PStr (s : string).

(** The keys of an entry; [None] is a key the dict does not have. *)
Record entry := Entry {
  id : option Z;
  title : option string;
  date : option string;
  mood : option string;
  category : option string;
  subcategory : option string;
  image_path : option string;
  notes : option string;
  tags : option (list string);
  created_at : option string;
  dream_theme : option string;
  dream_priority : option string;
  dream_target_date : option string;
  dream_progress : option progress
}.

#[global] Instance progress_eq_dec : EqDecision progress.
Proof. solve_decision. Defined.

#[global] Instance entry_eq_dec : EqDecision entry.
Proof. solve_decision. Defined.

(** The dict without any key. *)
Definition empty_entry : entry :=
  Entry None None None None None None None None None None None None None None.

(** [e.get(k, d)] is [default d (k e)], [e.get(k) or d] on a text key is
    [get_or], and [d.setdefault(k, v)] keeps a key that is there. *)
Definition get_or (o : option string) (d : string) : string :=
  PyStr.or_else (default "" o) d.

Definition setdefault {A} (o : option A) (v : A) : option A :=
  match o with
  | Some x => Some x
  | None => Some v
  end.

(** The state of [entries.json]. *)
Inductive file :=
| Absent
| Unparseable (text : string)
| Json (records : list entry).

(** ** Handlers as computations over the file *)

Definition M (A : Type) : Type := file -> A * file.

#[global] Instance M_ret : MRet M := fun A a f => (a, f).

#[global] Instance M_bind : MBind M :=
  fun A B k m f => let (a, f') := m f in k a f'.

(** ** The record store *)

(** The defaulting loop of [load_entries] on one record. *)
Definition backfill (e : entry) : entry :=
  {| id := id e;
     title := title e;
     date := date e;
     mood := mood e;
     category := setdefault (category e) "Art";
     subcategory := setdefault (subcategory e) "";
     image_path := image_path e;
     notes := notes e;
     tags := setdefault (tags e) [];
     created_at := created_at e;
     dream_theme := setdefault (dream_theme e) "";
     dream_priority := setdefault (dream_priority e) "";
     dream_target_date := setdefault (dream_target_date e) "";
     dream_progress := setdefault (dream_progress e) (PInt 0) |}.

(** What [load_entries] returns for a state of the file. *)
Definition load (f : file) : list entry :=
  match f with
  | Absent => []
  | Unparseable _ => []
  | Json records => backfill <$> records
  end.

Definition load_entries : M (list entry) := fun f => (load f, f).

Definition save_entries (entries : list entry) : M unit :=
  fun _ => (tt, Json entries).

(** ** The id allocator *)

(** [max] of a list that starts with [x]. *)
Definition max_from (x : Z) (l : list Z) : Z := foldl Z.max x l.

(** [[e.get("id", 0) for e in entries]] *)
Definition existing_ids (entries : list entry) : list Z :=
  (fun e => default 0 (id e)) <$> entries.

Definition next_id (entries : list entry) : Z :=
  match entries with
  | [] => 1
  | e :: es => max_from (default 0 (id e)) (existing_ids es) + 1
  end.

(** ** Python's [sorted] *)

(** The order [<] on the keys of a sort, as a boolean test. *)
Class PyOrder {K : Type} (lt : K -> K -> bool) := {
  lt_irrefl : forall a, lt a a = false;
  lt_trans : forall a b c, lt a b = true -> lt b c = true -> lt a c = true;
  lt_total : forall a b, lt a b = false -> lt b a = false -> a = b
}.

(** [<] on tuples of two: the first components decide unless they are
    equal. *)
Definition pair_lt {K1 K2} (lt1 : K1 -> K1 -> bool) (lt2 : K2 -> K2 -> bool)
    (a b : K1 * K2) : bool :=
  lt1 a.1 b.1 || (negb (lt1 b.1 a.1) && lt2 a.2 b.2).

(** The order that [reverse=True] sorts by. *)
Definition rev_lt {K} (lt : K -> K -> bool) (reverse : bool) (a b : K) : bool :=
  if reverse then lt b a else lt a b.

Section PySorted.
Context {A K : Type} (lt : K -> K -> bool) (key : A -> K).

(** [x] comes from the left of everything in [l]: it goes in front of
    the first element that is not smaller, so equal keys keep the order
    they came in. *)
Fixpoint insert_stable (x : A) (l : list A) : list A :=
  match l with
  | [] => [x]
  | y :: l' => if lt (key y) (key x) then y :: insert_stable x l' else x :: l
  end.

Definition sort_stable (l : list A) : list A := foldr insert_stable [] l.

(** [a] may stand before [b] in the result: [b]'s key is not smaller. *)
Definition key_le (a b : A) : Prop := lt (key b) (key a) = false.
End PySorted.

(** [sorted(l, key=key, reverse=reverse)]: the stable sort. *)
Definition py_sorted {A K} (lt : K -> K -> bool) (key : A -> K)
    (reverse : bool) (l : list A) : list A :=
  sort_stable (rev_lt lt reverse) key l.

(** [sorted(set(l))] and [sorted(d.keys(), reverse=...)] on strings. *)
Definition sorted_strings (reverse : bool) (l : list string) : list string :=
  py_sorted String.ltb (fun s => s) reverse l.

(** ** The derived views *)

Definition date_key (e : entry) : string := default "" (date e).

(** [[t.lower() for t in e.get("tags", [])]] *)
Definition lower_tags (e : entry) : list string :=
  PyStr.lower <$> default [] (tags e).

(** Truth value of [keywords.intersection(tags)]. *)
Definition intersects (keywords : gset string) (tags : list string) : bool :=
  bool_decide (keywords ∩ list_to_set tags ≠ ∅).

Module Gallery.
Definition dream_keywords : gset string :=
  list_to_set ["dream"; "dreams"; "goal"; "goals"; "manifest"; "manifestation"].

Definition dream_categories : gset string :=
  list_to_set ["goal"; "goals"; "dreams"; "dreamboard"].

(** The test of the loop of [compute_dream_entries]. *)
Definition is_dream (e : entry) : bool :=
  let cat := PyStr.lower (get_or (category e) "") in
  let tags := lower_tags e in
  if bool_decide (cat ∈ dream_categories) then true
  else if intersects dream_keywords tags then true
  else false.
End Gallery.

Definition compute_dream_entries (entries : list entry) : list entry :=
  let result := filter (fun e => Gallery.is_dream e = true) entries in
  py_sorted String.ltb date_key true result.

Module Dreamboard.
Definition dream_keywords : gset string :=
  list_to_set ["dream"; "goal"; "goals"; "manifest"; "manifestation"].

Definition dream_categories : gset string := list_to_set ["goal"; "goals"].

(** The test of step 1 of [dreamboard]. *)
Definition is_dream (e : entry) : bool :=
  let cat := PyStr.lower (get_or (category e) "") in
  let tags := lower_tags e in
  bool_decide (cat ∈ dream_categories) || intersects dream_keywords tags.

(** Step 2: the dream keys are set on the selected entries. *)
Definition ensure_dream_fields (e : entry) : entry :=
  {| id := id e; title := title e; date := date e; mood := mood e;
     category := category e; subcategory := subcategory e;
     image_path := image_path e; notes := notes e; tags := tags e;
     created_at := created_at e;
     dream_theme := setdefault (dream_theme e) (default "" (category e));
     dream_priority := setdefault (dream_priority e) "";
     dream_target_date := setdefault (dream_target_date e) "";
     dream_progress := setdefault (dream_progress e) (PInt 0) |}.

Definition dream_sort_key (e : entry) : string * string :=
  (get_or (dream_target_date e) "", get_or (date e) "").

(** [[e for e in l if (e.get(k) or "").lower() == wanted.lower()]] when a
    filter is given. *)
Definition apply_filter (field : entry -> option string)
    (wanted : option string) (l : list entry) : list entry :=
  match wanted with
  | Some w => filter (fun e => PyStr.lower (get_or (field e) "") = PyStr.lower w) l
  | None => l
  end.

(** Steps 1, 2, 5 and 6: the entries the page shows. *)
Definition entries (current_theme current_priority : option string)
    (entries : list entry) : list entry :=
  let dream_entries := filter (fun e => is_dream e = true) entries in
  let dream_entries := ensure_dream_fields <$> dream_entries in
  let dream_entries := apply_filter dream_theme current_theme dream_entries in
  let dream_entries := apply_filter dream_priority current_priority dream_entries in
  py_sorted (pair_lt String.ltb String.ltb) dream_sort_key false dream_entries.
End Dreamboard.

Module Milestones.
(** [e.get("dream_progress") or 0] *)
Definition prog_raw (e : entry) : progress :=
  match dream_progress e with
  | None => PInt 0
  | Some (PInt n) => PInt n
  | Some (PStr s) => if PyStr.truthy s then PStr s else PInt 0
  end.

(** [int(prog_raw)], with 0 when it raises. *)
Definition prog (e : entry) : Z :=
  match prog_raw e with
  | PInt n => n
  | PStr s => default 0 (PyStr.int s)
  end.

Definition is_milestone (e : entry) : bool :=
  let tags := lower_tags e in
  (80 <=? prog e) || bool_decide ("milestone" ∈ tags).

Definition sort_key (e : entry) : Z * string :=
  (- prog e, get_or (dream_target_date e) "").

Definition entries (entries : list entry) : list entry :=
  let milestone_entries := filter (fun e => is_milestone e = true) entries in
  py_sorted (pair_lt Z.ltb String.ltb) sort_key false milestone_entries.
End Milestones.

Module Timeline.
(** One element of [month_blocks] and one of [timeline_years]. *)
Record month_block := MonthBlock {
  month : string;
  month_name : string;
  entries : list entry
}.

Record year_block := YearBlock {
  year : string;
  months : list month_block
}.

#[global] Instance month_block_eq_dec : EqDecision month_block.
Proof. solve_decision. Defined.

#[global] Instance year_block_eq_dec : EqDecision year_block.
Proof. solve_decision. Defined.

(** [calendar.month_name] in the C locale: thirteen names, the first one
    empty. *)
Definition calendar_month_name : list string :=
  [""; "January"; "February"; "March"; "April"; "May"; "June"; "July";
   "August"; "September"; "October"; "November"; "December"].

(** [l[i]] with Python's indices: a negative one counts from the end;
    [None] stands for [IndexError]. *)
Definition py_index {A} (l : list A) (i : Z) : option A :=
  if (0 <=? i)%Z then l !! Z.to_nat i
  else if (- Z.of_nat (length l) <=? i)%Z then l !! Z.to_nat (Z.of_nat (length l) + i)
  else None.

(** [[e for e in scoped_entries if e.get("date")]] *)
Definition has_date (e : entry) : bool := PyStr.truthy (default "" (date e)).

(** The entries the grouping loop does not skip. *)
Definition long_date (e : entry) : bool :=
  PyStr.truthy (default "" (date e)) && negb (String.length (default "" (date e)) <? 7)%nat.

Definition year_of (e : entry) : string := PyStr.slice 0 4 (default "" (date e)).
Definition month_of (e : entry) : string := PyStr.slice 5 7 (default "" (date e)).

(** [grouped[year]] and [months[month]] on the [defaultdict]s. *)
Definition at_year (grouped : gmap string (gmap string (list entry)))
    (year : string) : gmap string (list entry) :=
  default ∅ (grouped !! year).

Definition at_month (months : gmap string (list entry)) (month : string)
    : list entry :=
  default [] (months !! month).

(** One round of the grouping loop on [grouped], the dict of dicts of
    lists. *)
Definition group_step (grouped : gmap string (gmap string (list entry)))
    (e : entry) : gmap string (gmap string (list entry)) :=
  if negb (long_date e) then grouped
  else
    let months := at_year grouped (year_of e) in
    <[year_of e := <[month_of e := at_month months (month_of e) ++ [e]]> months]> grouped.

Definition group (dated_entries : list entry)
    : gmap string (gmap string (list entry)) :=
  foldl group_step ∅ dated_entries.

(** [sorted(d.keys(), reverse=True)] *)
Definition keys_desc {V} (d : gmap string V) : list string :=
  sorted_strings true (map_to_list d).*1.

(** The body of the inner loop; [None] when [int(month)] or the look-up
    of the name raises. *)
Definition block_of (months : gmap string (list entry)) (month : string)
    : option month_block :=
  month_num ← PyStr.int month;
  month_name ← py_index calendar_month_name month_num;
  Some (MonthBlock month month_name (at_month months month)).

Definition year_of_blocks (grouped : gmap string (gmap string (list entry)))
    (year : string) : option year_block :=
  let months := at_year grouped year in
  month_blocks ← mapM (block_of months) (keys_desc months);
  Some (YearBlock year month_blocks).

(** The entries with a date, newest first. *)
Definition dated_entries (scoped_entries : list entry) : list entry :=
  let dated_entries := filter (fun e => has_date e = true) scoped_entries in
  py_sorted String.ltb date_key true dated_entries.

(** From the scoped entries to [timeline_years]. *)
Definition timeline_years (scoped_entries : list entry) : option (list year_block) :=
  let grouped := group (dated_entries scoped_entries) in
  mapM (year_of_blocks grouped) (keys_desc grouped).
End Timeline.

(** ** The sidebar *)

Record sidebar := Sidebar {
  categories : list string;
  subcategories : list string;
  category_subcats : gmap string (list string)
}.

(** [sorted({field(e) for e in entries if field(e)})] *)
Definition distinct_sorted (field : entry -> option string) (entries : list entry)
    : list string :=
  let values := omap (fun e => s ← field e; guard (PyStr.truthy s = true);; Some s) entries in
  sorted_strings false (elements (list_to_set values : gset string)).

Definition subcats_step (acc : gmap string (list string)) (e : entry)
    : gmap string (list string) :=
  let c := default "" (category e) in
  let s := default "" (subcategory e) in
  if PyStr.truthy c && PyStr.truthy s
  then <[c := default [] (acc !! c) ++ [s]]> acc
  else acc.

Definition sidebar_of (entries : list entry) : sidebar :=
  {| categories := distinct_sorted category entries;
     subcategories := distinct_sorted subcategory entries;
     category_subcats :=
       (fun subs => sorted_strings false (elements (list_to_set subs : gset string)))
         <$> foldl subcats_step ∅ entries |}.

(** ** Requests and responses *)

Inductive http_method := GET | POST.

(** What a handler reads from the request and from the clock. *)
Record request := Request {
  method : http_method;
  args : gmap string string;        (* request.args *)
  form : gmap string string;        (* request.form *)
  image_file : option string;       (* the file name of request.files["image_file"] *)
  today : string;                   (* datetime.today().strftime("%Y-%m-%d") *)
  utcnow : string                   (* datetime.utcnow().isoformat() *)
}.

(** The variables handed to a template. *)
Inductive view :=
| IndexView (entries dream_entries featured_reflections featured_dreams : list entry)
    (side : sidebar)
| TimelineView (timeline_years : list Timeline.year_block) (side : sidebar)
    (current_category : option string)
| NewView (categories subcategories : list string)
| DetailView (e : entry)
| EditView (e : entry) (tags_str : string) (categories subcategories : list string)
| DreamboardView (entries : list entry) (themes priorities : list string)
    (current_theme current_priority : option string) (side : sidebar)
| MilestonesView (entries : list entry) (side : sidebar).

Inductive response :=
| Render (template : string) (v : view)
| Redirect (endpoint : string) (entry_id : option Z)
| NotFound        (* "Entry not found", 404 *)
| BadRequest      (* request.form[key] on a key the form lacks: 400 *)
| ServerError.    (* an exception nothing catches: 500 *)

(** [d.get(k, "")] on the form and [d.get(k) or None] on the arguments. *)
Definition form_get (d : gmap string string) (k : string) : string :=
  default "" (d !! k).

Definition arg_or_none (d : gmap string string) (k : string) : option string :=
  s ← d !! k; guard (PyStr.truthy s = true);; Some s.

(** [[t.strip() for t in raw_tags.split(",") if t.strip()]] *)
Definition parse_tags (raw_tags : string) : list string :=
  omap (fun t => let t' := PyStr.strip t in guard (PyStr.truthy t' = true);; Some t')
       (PyStr.split "," raw_tags).

Definition ALLOWED_EXTENSIONS : gset string :=
  list_to_set ["png"; "jpg"; "jpeg"; "gif"].

(** The text after the last dot is an allowed extension. *)
Definition allowed_file (filename : string) : bool :=
  let parts := PyStr.split "." filename in
  (1 <? length parts)%nat
  && bool_decide (PyStr.lower (default "" (last parts)) ∈ ALLOWED_EXTENSIONS).

(** A dict is false when it has no key. *)
Definition truthy_entry (e : entry) : bool := bool_decide (e ≠ empty_entry).

(** [next((e for e in entries if e.get("id") == entry_id), None)], with the
    place of the entry in the list since the handlers change it there. *)
Definition find_entry (entry_id : Z) (entries : list entry) : option (nat * entry) :=
  list_find (fun e => id e = Some entry_id) entries.

(** ** The handlers *)

Definition index : M response :=
  entries ← load_entries;
  let dream_entries := compute_dream_entries entries in
  let regular_entries := filter (fun e => e ∉ dream_entries) entries in
  let regular_entries_sorted := py_sorted String.ltb date_key true regular_entries in
  let reflections_all :=
    filter (fun e => category e = Some "Life diary"
                     ∧ subcategory e = Some "Daily reflection") entries in
  let featured_reflections := take 3 (py_sorted String.ltb date_key true reflections_all) in
  let featured_dreams := take 3 dream_entries in
  mret (Render "index.html"
          (IndexView regular_entries_sorted dream_entries featured_reflections
             featured_dreams (sidebar_of entries))).

Definition timeline (req : request) : M response :=
  entries ← load_entries;
  let current_category := args req !! "category" in
  let scoped_entries :=
    match current_category with
    | Some c =>
        if PyStr.truthy c
        then filter (fun e => PyStr.lower (default "" (category e)) = PyStr.lower c) entries
        else entries
    | None => entries
    end in
  match Timeline.timeline_years scoped_entries with
  | Some timeline_years =>
      mret (Render "timeline.html"
              (TimelineView timeline_years (sidebar_of entries) current_category))
  | None => mret ServerError
  end.

Definition dreamboard (req : request) : M response :=
  entries ← load_entries;
  let current_theme := arg_or_none (args req) "theme" in
  let current_priority := arg_or_none (args req) "priority" in
  let selected :=
    Dreamboard.ensure_dream_fields <$> filter (fun e => Dreamboard.is_dream e = true) entries in
  mret (Render "dreamboard.html"
          (DreamboardView (Dreamboard.entries current_theme current_priority entries)
             (distinct_sorted dream_theme selected) ["High"; "Medium"; "Low"]
             current_theme current_priority (sidebar_of entries))).


Definition entry_detail (entry_id : Z) : M response :=
  entries ← load_entries;
  match find_entry entry_id entries with
  | Some (_, entry) =>
      if negb (truthy_entry entry) then mret NotFound
      else mret (Render "detail.html" (DetailView entry))
  | None => mret NotFound
  end.

Definition delete_entry (entry_id : Z) : M response :=
  entries ← load_entries;
  let new_entries := filter (fun e => id e ≠ Some entry_id) entries in
  save_entries new_entries;;
  mret (Redirect "index" None).

Section Uploads.
(** [werkzeug.utils.secure_filename], which the program takes from its
    framework. *)
Variable secure_filename : string -> string.

(** The path stored for an accepted upload, or [image_path] when the
    request has no acceptable file. *)
Definition uploaded_path (req : request) (image_path : string) : string :=
  match image_file req with
  | Some filename =>
      if PyStr.truthy filename && allowed_file filename
      then "uploads/" +:+ secure_filename filename
      else image_path
  | None => image_path
  end.

Definition new_entry (req : request) : M response :=
  entries ← load_entries;
  match method req with
  | POST =>
      let image_path := uploaded_path req "" in
      let entry_id := next_id entries in
      let tags := parse_tags (form_get (form req) "tags") in
      match form req !! "title" with
      | None => mret BadRequest
      | Some title =>
          let entry :=
            {| id := Some entry_id;
               title := Some title;
               date := Some (PyStr.or_else (form_get (form req) "date") (today req));
               mood := Some (form_get (form req) "mood");
               category := Some (default "Art" (form req !! "category"));
               subcategory := Some (form_get (form req) "subcategory");
               image_path := Some image_path;
               notes := Some (form_get (form req) "notes");
               tags := Some tags;
               created_at := Some (utcnow req);
               dream_theme := Some (PyStr.strip (form_get (form req) "dream_theme"));
               dream_priority := Some (PyStr.strip (form_get (form req) "dream_priority"));
               dream_target_date :=
                 Some (PyStr.strip (form_get (form req) "dream_target_date"));
               dream_progress :=
                 Some (PStr (PyStr.strip (form_get (form req) "dream_progress"))) |} in
          save_entries (entries ++ [entry]);;
          mret (Redirect "index" None)
      end
  | GET =>
      mret (Render "new.html"
              (NewView (distinct_sorted category entries)
                 (distinct_sorted subcategory entries)))
  end.

(** [entry.update({...})] of the edit form: [id] and [created_at] are not
    among the keys it writes. *)
Definition update_from_form (req : request) (title : string) (e : entry) : entry :=
  {| id := id e;
     title := Some title;
     date := Some (PyStr.or_else (form_get (form req) "date") (default "" (date e)));
     mood := Some (form_get (form req) "mood");
     category := Some (default "Art" (form req !! "category"));
     subcategory := Some (form_get (form req) "subcategory");
     image_path := Some (uploaded_path req (default "" (image_path e)));
     notes := Some (form_get (form req) "notes");
     tags := Some (parse_tags (form_get (form req) "tags"));
     created_at := created_at e;
     dream_theme := Some (PyStr.strip (form_get (form req) "dream_theme"));
     dream_priority := Some (PyStr.strip (form_get (form req) "dream_priority"));
     dream_target_date := Some (PyStr.strip (form_get (form req) "dream_target_date"));
     dream_progress :=
       Some (PStr (PyStr.strip (form_get (form req) "dream_progress"))) |}.

(** The three [setdefault] calls at the head of [edit_entry]. *)
Definition ensure_keys (e : entry) : entry :=
  {| id := id e; title := title e; date := date e; mood := mood e;
     category := setdefault (category e) "Art";
     subcategory := setdefault (subcategory e) "";
     image_path := image_path e; notes := notes e;
     tags := setdefault (tags e) [];
     created_at := created_at e; dream_theme := dream_theme e;
     dream_priority := dream_priority e;
     dream_target_date := dream_target_date e;
     dream_progress := dream_progress e |}.

(** [entry] is an element of [entries], so what is done to it is done to
    the list at its place [i]. *)
Definition edit_entry (req : request) (entry_id : Z) : M response :=
  entries ← load_entries;
  match find_entry entry_id entries with
  | Some (i, entry) =>
      if negb (truthy_entry entry) then mret NotFound
      else
        let entry := ensure_keys entry in
        let entries := <[i := entry]> entries in
        let categories := distinct_sorted category entries in
        let subcategories := distinct_sorted subcategory entries in
        match method req with
        | POST =>
            match form req !! "title" with
            | None => mret BadRequest
            | Some title =>
                let entry := update_from_form req title entry in
                let entries := <[i := entry]> entries in
                save_entries entries;;
                mret (Redirect "entry_detail" (Some entry_id))
            end
        | GET =>
            let tags_str := PyStr.join ", " (default [] (tags entry)) in
            mret (Render "edit.html" (EditView entry tags_str categories subcategories))
        end
  | None => mret NotFound
  end.
End Uploads.

(** ** More of Python's strings *)

Module PyText.
(** [s.startswith(p)] *)
Fixpoint startswith (p s : string) : bool :=
  match p, s with
  | EmptyString, _ => true
  | String a p', String b s' => Ascii.eqb a b && startswith p' s'
  | String _ _, EmptyString => false
  end.

(** [q in s]: [q] starts at some place of [s]. *)
Fixpoint contains (q s : string) : bool :=
  startswith q s
  || match s with
     | String _ s' => contains q s'
     | EmptyString => false
     end.
End PyText.

(** ** The other pages *)

(** What a handler of this part answers: a rendered template, a redirect
    to an endpoint, or the 400 of a form without the key it reads. *)
Inductive reply (V : Type) :=
| Shown (template : string) (v : V)
| Sent (endpoint : string)
| Refused.

Arguments Shown {V} template v.
Arguments Sent {V} endpoint.
Arguments Refused {V}.

(** The variables [category_view], [subcategory_view] and [search] hand to
    [index.html]. *)
Record listing := Listing {
  shown_entries : list entry;
  shown_dream_entries : list entry;
  shown_side : sidebar;
  shown_category : option string;
  shown_subcategory : option string;
  shown_query : option string
}.

(** [sorted(filtered, key=lambda e: e.get("date", ""), reverse=True) if
    filtered else []] *)
Definition sorted_if_any (filtered : list entry) : list entry :=
  match filtered with
  | [] => []
  | _ => py_sorted String.ltb date_key true filtered
  end.

Definition category_view (name : string) : M (reply listing) :=
  entries ← load_entries;
  let filtered :=
    filter (fun e => PyStr.lower (default "" (category e)) = PyStr.lower name) entries in
  mret (Shown "index.html"
          (Listing (sorted_if_any filtered) [] (sidebar_of entries) (Some name) None None)).

Definition subcategory_view (name : string) : M (reply listing) :=
  entries ← load_entries;
  let filtered :=
    filter (fun e => PyStr.lower (default "" (subcategory e)) = PyStr.lower name) entries in
  mret (Shown "index.html"
          (Listing (sorted_if_any filtered) [] (sidebar_of entries) None (Some name) None)).

Module Search.
(** The text an entry is searched in. *)
Definition haystack (e : entry) : string :=
  let text_bits :=
    [default "" (title e); default "" (notes e); default "" (mood e);
     default "" (category e); default "" (subcategory e);
     PyStr.join " " (default [] (tags e))] in
  PyStr.lower (PyStr.join " " text_bits).

Definition matches (q : string) (e : entry) : bool :=
  PyText.contains q (haystack e).
End Search.

Definition search (req : request) : M (reply listing) :=
  let query := PyStr.strip (form_get (args req) "q") in
  entries ← load_entries;
  if negb (PyStr.truthy query) then mret (Sent "index")
  else
    let q := PyStr.lower query in
    let filtered := filter (fun e => Search.matches q e = true) entries in
    let entries_sorted := py_sorted String.ltb date_key true filtered in
    mret (Shown "index.html"
            (Listing entries_sorted [] (sidebar_of entries) None None (Some query))).

(** The lists of the form of [new_dream]. *)
Record dream_form := DreamForm {
  themes : list string;
  priorities : list string
}.

(** [request.form.get("dream_progress") or ""] is the submitted text. *)
Definition new_dream (req : request) : M (reply dream_form) :=
  entries ← load_entries;
  match method req with
  | POST =>
      match form req !! "title" with
      | None => mret Refused
      | Some title =>
          let entry :=
            {| id := Some (next_id entries);
               title := Some (PyStr.strip title);
               date := Some (today req);
               mood := Some "";
               category := Some "Goals";
               subcategory := Some "";
               image_path := Some "";
               notes := Some (PyStr.strip (form_get (form req) "notes"));
               tags := Some ["dream"];
               created_at := Some (utcnow req);
               dream_theme := Some (PyStr.strip (form_get (form req) "dream_theme"));
               dream_priority := Some (PyStr.strip (form_get (form req) "dream_priority"));
               dream_target_date :=
                 Some (PyStr.strip (form_get (form req) "dream_target_date"));
               dream_progress := Some (PStr (form_get (form req) "dream_progress")) |} in
          save_entries (entries ++ [entry]);;
          mret (Sent "dreamboard")
      end
  | GET =>
      mret (Shown "new_dream.html"
              (DreamForm ["Career"; "Travel"; "Art"; "Wellbeing"; "Spiritual"; "Growth"]
                 ["High"; "Medium"; "Low"]))
  end.

Record reflect_view := ReflectView {
  reflections : list entry;
  reflect_side : sidebar
}.

(** The entries of the diary, the tests of [index] and [daily_reflection]. *)
Definition is_reflection (e : entry) : Prop :=
  category e = Some "Life diary" ∧ subcategory e = Some "Daily reflection".

#[global] Instance is_reflection_dec e : Decision (is_reflection e).
Proof. unfold is_reflection. apply _. Defined.

(** The entry a reflection is saved as; the dash of the title is the three
    bytes of its UTF-8 form. *)
Definition reflection_entry (entry_id : Z) (today_str utcnow_str notes mood : string)
    : entry :=
  {| id := Some entry_id;
     title := Some ("Daily reflection – " +:+ today_str);
     date := Some today_str;
     mood := Some mood;
     category := Some "Life diary";
     subcategory := Some "Daily reflection";
     image_path := Some "";
     notes := Some notes;
     tags := Some ["reflection"];
     created_at := Some utcnow_str;
     dream_theme := Some "";
     dream_priority := Some "";
     dream_target_date := Some "";
     dream_progress := Some (PInt 0) |}.

(** The part below the [if request.method == "POST"] block. *)
Definition reflect_page (entries : list entry) : reply reflect_view :=
  let reflections := filter is_reflection entries in
  let reflections := take 30 (py_sorted String.ltb date_key true reflections) in
  Shown "reflect.html" (ReflectView reflections (sidebar_of entries)).

Definition daily_reflection (req : request) : M (reply reflect_view) :=
  entries ← load_entries;
  match method req with
  | POST =>
      let today_str := today req in
      let notes := PyStr.strip (form_get (form req) "notes") in
      let mood := PyStr.strip (form_get (form req) "mood") in
      if PyStr.truthy notes then
        let entry_id := next_id entries in
        let entry := reflection_entry entry_id today_str (utcnow req) notes mood in
        save_entries (entries ++ [entry]);;
        mret (Sent "daily_reflection")
      else mret (reflect_page entries)
  | GET => mret (reflect_page entries)
  end.

Module Stats.
(** [counts[k] += 1] on a [defaultdict(int)], whose keys stay in the order
    they were first counted in. *)
Fixpoint bump (k : string) (counts : list (string * Z)) : list (string * Z) :=
  match counts with
  | [] => [(k, 1)]
  | (k', n) :: rest => if decide (k' = k) then (k', n + 1) :: rest else (k', n) :: bump k rest
  end.

(** One round of the counting loop for one key of the entries: an absent
    or empty value is not counted. *)
Definition count_step (field : entry -> option string) (counts : list (string * Z))
    (e : entry) : list (string * Z) :=
  let v := default "" (field e) in
  if PyStr.truthy v then bump v counts else counts.

Definition count_by (field : entry -> option string) (entries : list entry)
    : list (string * Z) :=
  foldl (count_step field) [] entries.

(** [sorted(counts.items(), key=lambda x: x[1], reverse=True)] *)
Definition top (counts : list (string * Z)) : list (string * Z) :=
  py_sorted Z.ltb snd true counts.

(** [e.get("date") and e["date"].startswith(current_year)] *)
Definition in_year (current_year : string) (e : entry) : bool :=
  let d := default "" (date e) in
  PyStr.truthy d && PyText.startswith current_year d.

Record view := View {
  total_entries : nat;
  this_year_count : nat;
  top_categories : list (string * Z);
  top_moods : list (string * Z);
  upcoming_entries : list entry;
  side : sidebar
}.
End Stats.

Section Calendar.
(** [(datetime.strptime(dstr, "%Y-%m-%d").date() - today).days], the days
    from today to a date, taken from the library; [None] when [strptime]
    raises [ValueError]. *)
Variable days_until : string -> option Z.

(** The loop that collects [upcoming]: the pairs of a distance within
    sixty days and its entry. *)
Definition upcoming_pairs (entries : list entry) : list (Z * entry) :=
  omap (fun e =>
          let dstr := get_or (dream_target_date e) "" in
          if negb (PyStr.truthy dstr) then None
          else
            delta ← days_until dstr;
            if (0 <=? delta) && (delta <=? 60) then Some (delta, e) else None)
       entries.

(** [current_year] is [datetime.today().strftime("%Y")]. *)
Definition stats (current_year : string) : M (reply Stats.view) :=
  entries ← load_entries;
  let total_entries := length entries in
  let by_category := Stats.count_by category entries in
  let by_mood := Stats.count_by mood entries in
  let this_year_entries := filter (fun e => Stats.in_year current_year e = true) entries in
  let upcoming := py_sorted Z.ltb fst false (upcoming_pairs entries) in
  mret (Shown "stats.html"
          {| Stats.total_entries := total_entries;
             Stats.this_year_count := length this_year_entries;
             Stats.top_categories := Stats.top by_category;
             Stats.top_moods := Stats.top by_mood;
             Stats.upcoming_entries := upcoming.*2;
             Stats.side := sidebar_of entries |}).
End Calendar.

(** ** Notions the statements use *)

(** Every key of the data model is there. *)
Definition all_fields_present (e : entry) : Prop :=
  is_Some (id e) ∧ is_Some (title e) ∧ is_Some (date e) ∧ is_Some (mood e)
  ∧ is_Some (category e) ∧ is_Some (subcategory e) ∧ is_Some (image_path e)
  ∧ is_Some (notes e) ∧ is_Some (tags e) ∧ is_Some (created_at e)
  ∧ is_Some (dream_theme e) ∧ is_Some (dream_priority e)
  ∧ is_Some (dream_target_date e) ∧ is_Some (dream_progress e).

(** The records a state of the file holds. *)
Definition stored (f : file) : list entry :=
  match f with
  | Json records => records
  | _ => []
  end.

(** The ids are pairwise distinct: no id is carried by two entries. *)
Definition ids_unique (entries : list entry) : Prop := NoDup (omap id entries).

(** [e] with its id set to [n]. *)
Definition set_id (n : Z) (e : entry) : entry :=
  {| id := Some n; title := title e; date := date e; mood := mood e;
     category := category e; subcategory := subcategory e;
     image_path := image_path e; notes := notes e; tags := tags e;
     created_at := created_at e; dream_theme := dream_theme e;
     dream_priority := dream_priority e;
     dream_target_date := dream_target_date e;
     dream_progress := dream_progress e |}.

(** An entry that has nothing but an id. *)
Definition with_id (n : Z) : entry :=
  Entry (Some n) None None None None None None None None None None None None None.

(** The order of the milestone page: more progress first, and among equal
    progress the smaller target date first. *)
Definition milestone_before (a b : entry) : Prop :=
  Milestones.prog b < Milestones.prog a
  ∨ (Milestones.prog a = Milestones.prog b
     ∧ String.ltb (get_or (dream_target_date b) "") (get_or (dream_target_date a) "") = false).

(** An entry that has nothing but a date, and one that has nothing but a
    category and tags. *)
Definition dated (n : Z) (d : string) : entry :=
  Entry (Some n) None (Some d) None None None None None None None None None None None.

Definition tagged (c : string) (ts : list string) : entry :=
  Entry None None None None (Some c) None None None (Some ts) None None None None None.

(** [e] belongs to the block of the year [y] and the month [m]. *)
Definition in_block (y m : string) (e : entry) : Prop :=
  Timeline.long_date e = true ∧ Timeline.year_of e = y ∧ Timeline.month_of e = m.

#[global] Instance in_block_dec y m e : Decision (in_block y m e).
Proof. unfold in_block. apply _. Defined.



Definition date_desc (a b : entry) : Prop := String.ltb (date_key a) (date_key b) = false.

(** The character [c] occurs in [s]. *)
Fixpoint occurs (c : ascii) (s : string) : Prop :=
  match s with
  | EmptyString => False
  | String a s' => a = c ∨ occurs c s'
  end.

(** A tag as the forms store it: not empty, without blanks at its ends and
    without a comma. *)
Definition clean_tag (t : string) : Prop :=
  t ≠ "" ∧ PyStr.strip t = t ∧ ¬ occurs "," t.

(** The order of the dreamboard: the smaller target date first, and among
    equal target dates the smaller date first. *)
Definition board_before (a b : entry) : Prop :=
  String.ltb (get_or (dream_target_date a) "") (get_or (dream_target_date b) "") = true
  ∨ (get_or (dream_target_date a) "" = get_or (dream_target_date b) ""
     ∧ String.ltb (get_or (date b) "") (get_or (date a) "") = false).

(** [e] passes the filter on [field] with the wanted text [w]. *)
Definition passes (field : entry -> option string) (w : string) (e : entry) : Prop :=
  PyStr.lower (get_or (field e) "") = PyStr.lower w.

#[global] Instance passes_dec field w e : Decision (passes field w e).
Proof. unfold passes. apply _. Defined.

(** Strictly rising texts. *)
Definition text_asc (a b : string) : Prop := String.ltb a b = true.

(** [text] is one of the texts of [e] that the search reads: its title,
    notes, mood, category or subcategory, or one of its tags. *)
Definition searched_text (e : entry) (text : string) : Prop :=
  title e = Some text ∨ notes e = Some text ∨ mood e = Some text
  ∨ category e = Some text ∨ subcategory e = Some text
  ∨ text ∈ default [] (tags e).

(** The entries a reply lists, none for a redirect. *)
Definition listed (r : reply listing) : list entry :=
  match r with
  | Shown _ v => shown_entries v
  | _ => []
  end.

(** How many of the entries have the value [k] for a key. *)
Definition count_of (field : entry -> option string) (k : string)
    (entries : list entry) : Z :=
  Z.of_nat (length (filter (fun e => field e = Some k) entries)).

(** The number a list of counts gives for [k], 0 when [k] is not counted. *)
Definition count_at (k : string) (counts : list (string * Z)) : Z :=
  match list_find (fun p => p.1 = k) counts with
  | Some (_, (_, n)) => n
  | None => 0
  end.

(** The target date of [e] is given and lies [d] days after today. *)
Definition due_in (days_until : string -> option Z) (e : entry) (d : Z) : Prop :=
  get_or (dream_target_date e) "" ≠ ""
  ∧ days_until (get_or (dream_target_date e) "") = Some d.

(** The view a reply shows. *)
Definition shown_view {V} (r : reply V) : option V :=
  match r with
  | Shown _ v => Some v
  | _ => None
  end.

(** The greater number first, and the entry due sooner first. *)
Definition count_desc (a b : string * Z) : Prop := b.2 ≤ a.2.

Definition due_before (days_until : string -> option Z) (a b : entry) : Prop :=
  exists da db, due_in days_until a da ∧ due_in days_until b db ∧ da ≤ db.

(** The month of [e] is read as a number that [calendar.month_name] has a
    place for. *)
Definition month_ok (e : entry) : Prop :=
  is_Some (PyStr.int (Timeline.month_of e)
             ≫= Timeline.py_index Timeline.calendar_month_name).

(** Every entry that the timeline uses has such a month. *)
Definition months_readable (entries : list entry) : Prop :=
  forall e, e ∈ entries -> Timeline.long_date e = true -> month_ok e.


(** The record has the seven keys that [load_entries] fills in. *)
Definition has_new_keys (e : entry) : Prop :=
  is_Some (category e) ∧ is_Some (subcategory e) ∧ is_Some (tags e)
  ∧ is_Some (dream_theme e) ∧ is_Some (dream_priority e)
  ∧ is_Some (dream_target_date e) ∧ is_Some (dream_progress e).

(** * Properties *)

(** ** The orders the program sorts by *)

Lemma string_ltb_lt (a b : string) : String.ltb a b = true <-> String_as_OT.lt a b.
Proof.
  unfold String.ltb. rewrite <- String_as_OT.cmp_lt. unfold String_as_OT.cmp.
  destruct (String.compare a b); split; congruence.
Qed.

#[global] Instance string_order : PyOrder String.ltb.
Proof.
  split.
  - intros a. unfold String.ltb.
    assert (String.compare a a = Eq) as -> by (by apply String_as_OT.cmp_eq).
    done.
  - intros a b c Hab Hbc. apply string_ltb_lt.
    eapply String_as_OT.lt_trans; by apply string_ltb_lt.
  - intros a b Hab Hba. unfold String.ltb in *.
    rewrite String.compare_antisym in Hba.
    destruct (String.compare a b) eqn:E; simpl in *; try discriminate.
    by apply String.compare_eq_iff.
Qed.

#[global] Instance Z_order : PyOrder Z.ltb.
Proof. split; intros; lia. Qed.

Section OrderFacts.
Context {K : Type} (lt : K -> K -> bool) `{!PyOrder lt}.

Lemma lt_asym a b : lt a b = true -> lt b a = false.
Proof.
  intros Hab. destruct (lt b a) eqn:Hba; [|done].
  assert (lt a a = true) by (by eapply lt_trans).
  rewrite lt_irrefl in *. congruence.
Qed.

(** [a <= b] and [b <= c] give [a <= c], where [x <= y] is "not [y < x]". *)
Lemma le_trans a b c : lt b a = false -> lt c b = false -> lt c a = false.
Proof.
  intros Hba Hcb. destruct (lt c a) eqn:Hca; [|done].
  destruct (lt a b) eqn:Hab.
  - assert (lt c b = true) by (by eapply lt_trans). congruence.
  - assert (a = b) as -> by (by apply lt_total). congruence.
Qed.

Lemma lt_le_trans a b c : lt a b = true -> lt c b = false -> lt a c = true.
Proof.
  intros Hab Hcb. destruct (lt a c) eqn:Hac; [done|].
  destruct (lt c a) eqn:Hca.
  - assert (lt c b = true) by (by eapply lt_trans). congruence.
  - assert (a = c) as -> by (by apply lt_total). congruence.
Qed.

#[global] Instance rev_order reverse : PyOrder (rev_lt lt reverse).
Proof.
  destruct reverse; [|done]. unfold rev_lt. split.
  - intros a. apply lt_irrefl.
  - intros a b c Hab Hbc. by eapply lt_trans.
  - intros a b Hab Hba. by apply lt_total.
Qed.
End OrderFacts.

#[global] Instance pair_order {K1 K2} (lt1 : K1 -> K1 -> bool) (lt2 : K2 -> K2 -> bool)
  `{!PyOrder lt1, !PyOrder lt2} : PyOrder (pair_lt lt1 lt2).
Proof.
  unfold pair_lt. split.
  - intros [a1 a2]. simpl. by rewrite !lt_irrefl.
  - intros [a1 a2] [b1 b2] [c1 c2]. simpl.
    rewrite !orb_true_iff, !andb_true_iff, !negb_true_iff.
    intros [Hab | [Hab Hab2]] [Hbc | [Hbc Hbc2]].
    + left. exact (lt_trans _ _ _ Hab Hbc).
    + left. exact (lt_le_trans lt1 a1 b1 c1 Hab Hbc).
    + left. destruct (lt1 a1 c1) eqn:E; [done|].
      destruct (lt1 c1 a1) eqn:E'.
      * assert (lt1 b1 a1 = true) by exact (lt_trans _ _ _ Hbc E'). congruence.
      * assert (a1 = c1) as -> by (by apply lt_total). congruence.
    + right. split; [exact (le_trans lt1 a1 b1 c1 Hab Hbc) | exact (lt_trans _ _ _ Hab2 Hbc2)].
  - intros [a1 a2] [b1 b2]. simpl.
    rewrite !orb_false_iff, !andb_false_iff, !negb_false_iff.
    intros [Hab Hab'] [Hba Hba'].
    assert (a1 = b1) as -> by (by apply lt_total).
    destruct Hab' as [? | Hab']; [congruence|].
    destruct Hba' as [? | Hba']; [congruence|].
    f_equal. by apply lt_total.
Qed.

(** ** The stable sort *)

Section SortFacts.
Context {A K : Type} (lt : K -> K -> bool) (key : A -> K) `{!PyOrder lt}.

Lemma insert_stable_perm x l : insert_stable lt key x l ≡ₚ x :: l.
Proof.
  induction l as [|y l IH]; simpl; [done|].
  destruct (lt (key y) (key x)); [|done].
  rewrite IH. apply Permutation_swap.
Qed.

Lemma sort_stable_perm l : sort_stable lt key l ≡ₚ l.
Proof.
  induction l as [|x l IH]; simpl; [done|].
  fold (sort_stable lt key l). by rewrite insert_stable_perm, IH.
Qed.

Lemma insert_stable_sorted x l :
  StronglySorted (key_le lt key) l -> StronglySorted (key_le lt key) (insert_stable lt key x l).
Proof.
  induction 1 as [|y l Hl IH Hy]; simpl.
  - repeat constructor.
  - destruct (lt (key y) (key x)) eqn:E.
    + constructor; [done|].
      rewrite insert_stable_perm. constructor; [|done].
      unfold key_le. by apply lt_asym.
    + constructor; [by constructor|].
      constructor; [done|].
      eapply Forall_impl; [exact Hy|].
      intros z Hz. unfold key_le in *. by eapply le_trans.
Qed.

Lemma sort_stable_sorted l : StronglySorted (key_le lt key) (sort_stable lt key l).
Proof.
  induction l as [|x l IH]; simpl; [constructor|].
  by apply insert_stable_sorted.
Qed.

(** In front of elements that are not smaller, insertion is [cons]. *)
Lemma insert_stable_head x l :
  Forall (key_le lt key x) l -> insert_stable lt key x l = x :: l.
Proof.
  destruct 1 as [|y l Hy _]; simpl; [done|].
  unfold key_le in Hy. by rewrite Hy.
Qed.

Lemma sort_stable_id l : StronglySorted (key_le lt key) l -> sort_stable lt key l = l.
Proof.
  induction 1 as [|x l Hl IH Hx]; simpl; [done|].
  fold (sort_stable lt key l). rewrite IH. by apply insert_stable_head.
Qed.

Lemma filter_insert_stable (P : A -> Prop) `{!forall a, Decision (P a)} x l :
  StronglySorted (key_le lt key) l ->
  filter P (insert_stable lt key x l)
  = if decide (P x) then insert_stable lt key x (filter P l) else filter P l.
Proof.
  induction 1 as [|y l Hl IH Hy]; simpl.
  - rewrite filter_cons, filter_nil. by destruct (decide (P x)).
  - destruct (lt (key y) (key x)) eqn:E.
    + rewrite !(filter_cons _ y), IH.
      destruct (decide (P y)), (decide (P x)); simpl; by rewrite ?E.
    + rewrite (filter_cons _ x).
      destruct (decide (P x)); [|done].
      symmetry. apply insert_stable_head.
      apply Forall_forall. intros z Hz.
      apply list_elem_of_filter in Hz as [_ Hz].
      apply elem_of_cons in Hz as [->|Hz]; [done|].
      rewrite Forall_forall in Hy. specialize (Hy z Hz).
      unfold key_le in *. by eapply le_trans.
Qed.

(** Stability: a filter commutes with the sort. *)
Lemma filter_sort_stable (P : A -> Prop) `{!forall a, Decision (P a)} l :
  filter P (sort_stable lt key l) = sort_stable lt key (filter P l).
Proof.
  induction l as [|x l IH]; simpl; [done|].
  fold (sort_stable lt key l).
  rewrite filter_insert_stable by apply sort_stable_sorted.
  rewrite filter_cons, IH. by destruct (decide (P x)).
Qed.

(** Entries with the same key come out in the order they went in. *)
Lemma sort_stable_same_key `{!EqDecision K} k l :
  filter (fun a => key a = k) (sort_stable lt key l) = filter (fun a => key a = k) l.
Proof.
  rewrite filter_sort_stable. apply sort_stable_id.
  induction l as [|x l IH]; [constructor|].
  rewrite filter_cons. destruct (decide (key x = k)) as [Hx|]; [|done].
  constructor; [done|].
  apply Forall_forall. intros z Hz.
  apply list_elem_of_filter in Hz as [Hz _].
  unfold key_le. rewrite Hx, Hz. apply lt_irrefl.
Qed.

Lemma elem_of_sort_stable a l : a ∈ sort_stable lt key l <-> a ∈ l.
Proof. by rewrite sort_stable_perm. Qed.
End SortFacts.

(** ** The record store *)

Lemma setdefault_idem {A} (o : option A) v : setdefault (setdefault o v) v = setdefault o v.
Proof. by destruct o. Qed.

Lemma setdefault_default {A} (o : option A) v : setdefault o v = Some (default v o).
Proof. by destruct o. Qed.

Lemma backfill_idem e : backfill (backfill e) = backfill e.
Proof. unfold backfill. simpl. by rewrite !setdefault_idem. Qed.

Lemma load_Json_load f : load (Json (load f)) = load f.
Proof.
  destruct f as [| |records]; simpl; try done.
  rewrite <- list_fmap_compose. apply list_fmap_ext.
  intros _ e _. apply backfill_idem.
Qed.


(** C2, as the specification words it, fails: a record that lacks [title]
    is loaded without it. *)
Lemma load_leaves_title_absent :
  ~ (forall f e, e ∈ load f -> all_fields_present e).
Proof.
  intros H. specialize (H (Json [with_id 1]) (backfill (with_id 1))).
  destruct H as (_ & [t Ht] & _); [by apply list_elem_of_singleton|].
  discriminate Ht.
Qed.

(** C2, amended: every entry returned by [load] comes from a stored record
    and has the seven keys [category], [subcategory], [tags], [dream_theme],
    [dream_priority], [dream_target_date] and [dream_progress], each with
    the stored value or, when the record lacks the key, with its default
    ("Art", "", [], "", "", "", 0); the other keys ([id], [title], [date],
    [mood], [notes], [image_path], [created_at]) are as stored, absent when
    the record lacks them. *)
Theorem load_backfills_new_keys f e :
  e ∈ load f ->
  exists r, r ∈ stored f
    ∧ category e = Some (default "Art" (category r))
    ∧ subcategory e = Some (default "" (subcategory r))
    ∧ tags e = Some (default [] (tags r))
    ∧ dream_theme e = Some (default "" (dream_theme r))
    ∧ dream_priority e = Some (default "" (dream_priority r))
    ∧ dream_target_date e = Some (default "" (dream_target_date r))
    ∧ dream_progress e = Some (default (PInt 0) (dream_progress r))
    ∧ id e = id r ∧ title e = title r ∧ date e = date r ∧ mood e = mood r
    ∧ notes e = notes r ∧ image_path e = image_path r
    ∧ created_at e = created_at r.
Proof.
  destruct f as [| |records]; simpl; try (intros H; by apply elem_of_nil in H).
  intros (r & -> & Hr)%list_elem_of_fmap. exists r. split; [done|].
  unfold backfill. simpl. rewrite !setdefault_default. repeat split.
Qed.

Lemma load_backfills_new_keys_witness :
  exists r, r ∈ stored (Json [with_id 1])
    ∧ category (backfill (with_id 1)) = Some (default "Art" (category r))
    ∧ title (backfill (with_id 1)) = title r.
Proof.
  destruct (load_backfills_new_keys (Json [with_id 1]) (backfill (with_id 1)))
    as (r & Hr & Hc & H); [simpl; apply list_elem_of_singleton; reflexivity|].
  exists r. split; [exact Hr|]. split; [exact Hc|].
  destruct H as (_ & _ & _ & _ & _ & _ & _ & Ht & _). exact Ht.
Defined.

(** C6: saving what was loaded and loading again gives what the first load
    gave, because the defaulting of a record that has been defaulted changes
    nothing. *)
Theorem load_save_load :
  (forall f, load (save_entries (load f) f).2 = load f)
  ∧ (forall f, (entries ← load_entries; save_entries entries;; load_entries) f
               = (load f, Json (load f)))
  ∧ (forall f, let f1 := (save_entries (load f) f).2 in
               (save_entries (load f1) f1).2 = f1)
  ∧ (forall e, backfill (backfill e) = backfill e).
Proof.
  split; [|split; [|split]].
  - intros f. simpl. apply load_Json_load.
  - intros f. unfold mbind, M_bind, load_entries, save_entries. simpl.
    f_equal. apply load_Json_load.
  - intros f. simpl. f_equal. apply load_Json_load.
  - apply backfill_idem.
Qed.

(** ** The id allocator *)

Lemma max_from_ge x l : x ≤ max_from x l.
Proof.
  unfold max_from. revert x. induction l as [|y l IH]; intros x; simpl; [lia|].
  specialize (IH (Z.max x y)). lia.
Qed.

Lemma max_from_ub x l y : y ∈ l -> y ≤ max_from x l.
Proof.
  unfold max_from. revert x. induction l as [|z l IH]; intros x Hy; simpl.
  - by apply elem_of_nil in Hy.
  - apply elem_of_cons in Hy as [->|Hy]; [|by apply IH].
    pose proof (max_from_ge (Z.max x z) l) as H. unfold max_from in H. lia.
Qed.

Lemma max_from_elem x l : max_from x l ∈ x :: l.
Proof.
  unfold max_from. revert x. induction l as [|y l IH]; intros x; simpl.
  - apply elem_of_cons. by left.
  - specialize (IH (Z.max x y)).
    apply elem_of_cons in IH as [IH|IH].
    + rewrite IH. destruct (Z.max_spec x y) as [[_ ->]|[_ ->]].
      * apply elem_of_cons. right. apply elem_of_cons. by left.
      * apply elem_of_cons. by left.
    + apply elem_of_cons. right. apply elem_of_cons. by right.
Qed.

Lemma next_id_cons e es : next_id (e :: es) = max_from (default 0 (id e)) (existing_ids es) + 1.
Proof. done. Qed.

Lemma next_id_above entries n : n ∈ existing_ids entries -> n < next_id entries.
Proof.
  destruct entries as [|e es]; [intros H; by apply elem_of_nil in H|].
  rewrite next_id_cons. intros [->|Hn]%elem_of_cons.
  - pose proof (max_from_ge (default 0 (id e)) (existing_ids es)). lia.
  - change (n ∈ existing_ids es) in Hn.
    pose proof (max_from_ub (default 0 (id e)) _ _ Hn). lia.
Qed.

Lemma existing_ids_set_default entries :
  existing_ids ((fun e => set_id (default 0 (id e)) e) <$> entries) = existing_ids entries.
Proof. unfold existing_ids. rewrite <- list_fmap_compose. by apply list_fmap_ext. Qed.

(** C4: [next_id] returns 1 on the empty list and otherwise one more than
    the greatest of the existing ids, the list [existing_ids] the function
    builds, which holds the ids themselves when every entry has one; on the
    list of the ids 3 and 7 it returns 8. *)
Theorem next_id_is_max_plus_one :
  next_id [] = 1
  ∧ (forall entries, entries ≠ [] ->
       exists m, m ∈ existing_ids entries
         ∧ (forall n, n ∈ existing_ids entries -> n ≤ m)
         ∧ next_id entries = m + 1)
  ∧ (forall entries, (forall e, e ∈ entries -> is_Some (id e)) ->
       Some <$> existing_ids entries = id <$> entries)
  ∧ next_id [with_id 3; with_id 7] = 8.
Proof.
  split; [done|]. split; [|split; [|done]].
  - intros [|e es] Hne; [done|].
    exists (max_from (default 0 (id e)) (existing_ids es)).
    split; [apply max_from_elem|]. split; [|done].
    intros n [->|Hn]%elem_of_cons; [apply max_from_ge | by apply max_from_ub].
  - intros entries Hid. unfold existing_ids. rewrite <- list_fmap_compose.
    apply list_fmap_ext. intros i e He. simpl.
    destruct (Hid e) as [n Hn]; [by eapply list_elem_of_lookup_2|]. by rewrite Hn.
Qed.

Lemma next_id_is_max_plus_one_witness :
  exists m, m ∈ existing_ids [with_id 3; with_id 7]
    ∧ (forall n, n ∈ existing_ids [with_id 3; with_id 7] -> n ≤ m)
    ∧ next_id [with_id 3; with_id 7] = m + 1.
Proof.
  destruct next_id_is_max_plus_one as (_ & H & _).
  apply (H [with_id 3; with_id 7]). discriminate.
Defined.

Lemma id_in_existing_ids entries e n :
  e ∈ entries -> id e = Some n -> n ∈ existing_ids entries.
Proof.
  intros He Hn. apply list_elem_of_fmap. exists e. by rewrite Hn.
Qed.

Lemma next_id_not_stored entries : next_id entries ∉ omap id entries.
Proof.
  intros (e & He & Hid)%list_elem_of_omap.
  pose proof (next_id_above _ _ (id_in_existing_ids _ _ _ He Hid)). lia.
Qed.

Lemma ids_unique_append entries e :
  id e = Some (next_id entries) -> ids_unique entries -> ids_unique (entries ++ [e]).
Proof.
  unfold ids_unique. intros Hid Hnd. rewrite omap_app. simpl. rewrite Hid.
  apply NoDup_app. split; [done|]. split; [|apply NoDup_singleton].
  intros n Hn ->%list_elem_of_singleton. by apply next_id_not_stored in Hn.
Qed.

Lemma load_append f e : backfill e = e -> load (Json (load f ++ [e])) = load f ++ [e].
Proof.
  intros He. simpl. rewrite fmap_app. simpl. rewrite He. f_equal.
  apply (load_Json_load f).
Qed.

Section NewEntry.
Variable secure_filename : string -> string.

(** What a submission with a title does: one entry with the next id is
    put at the end and the file is rewritten. *)
Lemma new_entry_post req f title0 :
  method req = POST -> form req !! "title" = Some title0 ->
  exists e, new_entry secure_filename req f = (Redirect "index" None, Json (load f ++ [e]))
    ∧ id e = Some (next_id (load f))
    ∧ created_at e = Some (utcnow req)
    ∧ backfill e = e.
Proof.
  intros Hm Ht. unfold new_entry, mbind, M_bind, load_entries. rewrite Hm, Ht.
  eexists. split; [reflexivity|]. by repeat split.
Qed.

Lemma new_entry_file req f :
  (new_entry secure_filename req f).2 = f
  ∨ exists e, (new_entry secure_filename req f).2 = Json (load f ++ [e])
      ∧ id e = Some (next_id (load f)) ∧ backfill e = e.
Proof.
  destruct (method req) eqn:Hm.
  - left. unfold new_entry, mbind, M_bind, load_entries. by rewrite Hm.
  - destruct (form req !! "title") as [t|] eqn:Ht.
    + right. destruct (new_entry_post req f t Hm Ht) as (e & -> & Hid & _ & Hb).
      by exists e.
    + left. unfold new_entry, mbind, M_bind, load_entries. by rewrite Hm, Ht.
Qed.
End NewEntry.

(** C10: [next_id] counts an entry without id as one with id 0 and returns
    a number above every id in the list; so when the ids of the
    collection are pairwise distinct they still are after [new_entry] has
    appended its entry, which carries [next_id] of the loaded collection;
    and on a list that is not empty and in which no entry has an id the
    result is 1. *)
Theorem next_id_fresh :
  (forall entries,
     next_id entries = next_id ((fun e => set_id (default 0 (id e)) e) <$> entries))
  ∧ (forall entries e n, e ∈ entries -> id e = Some n -> n < next_id entries)
  ∧ (forall entries e,
       id e = Some (next_id entries) -> ids_unique entries -> ids_unique (entries ++ [e]))
  ∧ (forall secure_filename req f title0,
       method req = POST -> form req !! "title" = Some title0 ->
       exists e, new_entry secure_filename req f
                 = (Redirect "index" None, Json (load f ++ [e]))
         ∧ id e = Some (next_id (load f))
         ∧ load (Json (load f ++ [e])) = load f ++ [e])
  ∧ (forall secure_filename req f,
       ids_unique (load f) -> ids_unique (load (new_entry secure_filename req f).2))
  ∧ (forall entries, entries ≠ [] -> (forall e, e ∈ entries -> id e = None) ->
       next_id entries = 1).
Proof.
  repeat apply conj.
  - intros [|e es]; [done|]. rewrite fmap_cons, !next_id_cons.
    by rewrite existing_ids_set_default.
  - intros entries e n He Hn. apply next_id_above. by eapply id_in_existing_ids.
  - apply ids_unique_append.
  - intros sf req f t Hm Ht.
    destruct (new_entry_post sf req f t Hm Ht) as (e & He & Hid & _ & Hb).
    exists e. split; [done|]. split; [done|]. by apply load_append.
  - intros sf req f Hu.
    destruct (new_entry_file sf req f) as [-> | (e & -> & Hid & Hb)]; [done|].
    rewrite load_append by done. by apply ids_unique_append.
  - intros [|e es] Hne Hnone; [done|]. rewrite next_id_cons.
    assert (forall n, n ∈ default 0 (id e) :: existing_ids es -> n = 0) as H0.
    { intros n Hn. change (n ∈ existing_ids (e :: es)) in Hn.
      apply list_elem_of_fmap in Hn as (e' & -> & He'). by rewrite (Hnone e'). }
    rewrite (H0 _ (max_from_elem _ _)). done.
Qed.

Lemma next_id_fresh_witness :
  3 < next_id [with_id 3; with_id 7] ∧ next_id [empty_entry; empty_entry] = 1.
Proof.
  destruct next_id_fresh as (_ & Habove & _ & _ & _ & Hnone). split.
  - apply (Habove [with_id 3; with_id 7] (with_id 3) 3); [|reflexivity].
    apply elem_of_cons. left. reflexivity.
  - apply (Hnone [empty_entry; empty_entry]); [discriminate|].
    intros e He. apply elem_of_cons in He as [->|He]; [reflexivity|].
    apply list_elem_of_singleton in He. subst e. reflexivity.
Defined.

(** ** Looking an entry up by its id *)

Lemma truthy_entry_id e n : id e = Some n -> truthy_entry e = true.
Proof.
  intros Hid. unfold truthy_entry. apply bool_decide_eq_true.
  intros ->. discriminate Hid.
Qed.

Lemma find_entry_None entry_id entries :
  find_entry entry_id entries = None <-> forall e, e ∈ entries -> id e ≠ Some entry_id.
Proof.
  unfold find_entry. rewrite list_find_None, Forall_forall. done.
Qed.

Lemma find_entry_Some entry_id entries i e :
  find_entry entry_id entries = Some (i, e) -> entries !! i = Some e ∧ id e = Some entry_id.
Proof.
  unfold find_entry. intros (Hi & Hid & _)%list_find_Some. done.
Qed.

Lemma backfill_load f : backfill <$> load f = load f.
Proof. apply (load_Json_load f). Qed.

Lemma entry_detail_file entry_id f : (entry_detail entry_id f).2 = f.
Proof.
  unfold entry_detail, mbind, M_bind, load_entries.
  destruct (find_entry entry_id (load f)) as [[i e]|]; [|done].
  by destruct (truthy_entry e).
Qed.

Lemma entry_detail_not_found entry_id f :
  (entry_detail entry_id f).1 = NotFound
  <-> forall e, e ∈ load f -> id e ≠ Some entry_id.
Proof.
  rewrite <- find_entry_None.
  unfold entry_detail, mbind, M_bind, load_entries.
  destruct (find_entry entry_id (load f)) as [[i e]|] eqn:Hfind; [|done].
  apply find_entry_Some in Hfind as [_ Hid].
  rewrite (truthy_entry_id _ _ Hid). simpl. split; discriminate.
Qed.

Section EditEntry.
Variable secure_filename : string -> string.

Lemma update_from_form_backfill req title0 e :
  backfill (update_from_form secure_filename req title0 e)
  = update_from_form secure_filename req title0 e.
Proof. done. Qed.

(** The ways [edit_entry] ends. *)
Lemma edit_entry_cases req entry_id f :
  (find_entry entry_id (load f) = None
   ∧ edit_entry secure_filename req entry_id f = (NotFound, f))
  ∨ (exists i e, find_entry entry_id (load f) = Some (i, e)
       ∧ ((method req = GET
           ∧ exists v, edit_entry secure_filename req entry_id f
                       = (Render "edit.html" v, f))
          ∨ (method req = POST ∧ form req !! "title" = None
             ∧ edit_entry secure_filename req entry_id f = (BadRequest, f))
          ∨ (exists title0, method req = POST ∧ form req !! "title" = Some title0
               ∧ edit_entry secure_filename req entry_id f
                 = (Redirect "entry_detail" (Some entry_id),
                    Json (<[i := update_from_form secure_filename req title0
                                    (ensure_keys e)]> (load f)))))).
Proof.
  unfold edit_entry, mbind, M_bind, load_entries.
  destruct (find_entry entry_id (load f)) as [[i e]|] eqn:Hfind; [|by left].
  right. exists i, e. split; [done|].
  apply find_entry_Some in Hfind as [_ Hid].
  rewrite (truthy_entry_id _ _ Hid). simpl.
  destruct (method req).
  - left. split; [done|]. by eexists.
  - right. destruct (form req !! "title") as [t|].
    + right. exists t. repeat split. simpl. unfold save_entries.
      by rewrite list_insert_insert_eq.
    + left. done.
Qed.

Lemma load_edited req title0 i e f :
  load (Json (<[i := update_from_form secure_filename req title0 e]> (load f)))
  = <[i := update_from_form secure_filename req title0 e]> (load f).
Proof.
  simpl. rewrite list_fmap_insert, backfill_load.
  by rewrite update_from_form_backfill.
Qed.
End EditEntry.

Lemma filter_id_differs entry_id (entries : list entry) :
  (forall e, e ∈ entries -> id e ≠ Some entry_id) ->
  filter (fun e => id e ≠ Some entry_id) entries = entries.
Proof.
  induction entries as [|e es IH]; intros H; [done|].
  rewrite filter_cons. destruct (decide (id e ≠ Some entry_id)) as [_|Hn].
  - f_equal. apply IH. intros e' He'. apply H. apply elem_of_cons. by right.
  - destruct Hn. apply H. apply elem_of_cons. by left.
Qed.

Lemma load_stored f : load f = backfill <$> stored f.
Proof. by destruct f. Qed.

Lemma fmap_fixed {A} (g : A -> A) (l : list A) :
  g <$> l = l <-> forall x, x ∈ l -> g x = x.
Proof.
  induction l as [|a l IH]; [split; [intros _ x Hx; by apply elem_of_nil in Hx|done]|].
  rewrite fmap_cons. split.
  - intros H. injection H as Ha Hl. intros x [->|Hx]%elem_of_cons; [done|].
    by apply IH.
  - intros H. f_equal.
    + apply H, list_elem_of_here.
    + apply IH. intros x Hx. by apply H, list_elem_of_further.
Qed.

(** The defaulting changes nothing on exactly the records that have the
    seven keys. *)
Lemma backfill_fixed_iff e : backfill e = e <-> has_new_keys e.
Proof.
  destruct e as [i t d m c s ip n tg ca dt dp dtd dpr].
  unfold backfill, has_new_keys. simpl.
  destruct c, s, tg, dt, dp, dtd, dpr; simpl;
    (split;
     [ intros H; try discriminate H; repeat split; by eexists
     | intros (H1 & H2 & H3 & H4 & H5 & H6 & H7); try reflexivity;
       first [ by apply is_Some_None in H1 | by apply is_Some_None in H2
             | by apply is_Some_None in H3 | by apply is_Some_None in H4
             | by apply is_Some_None in H5 | by apply is_Some_None in H6
             | by apply is_Some_None in H7 ] ]).
Qed.

(** C7, as the specification words it, fails: deleting an id that no entry
    has rewrites the file with the loaded collection, so a stored record
    that lacks one of the new keys is stored with its defaults, and an
    absent or unreadable file becomes a file that holds the empty list. *)
Lemma delete_missing_id_rewrites_store :
  ¬ (forall entry_id f,
       (forall e, e ∈ load f -> id e ≠ Some entry_id) ->
       stored (delete_entry entry_id f).2 = stored f)
  ∧ ¬ (forall entry_id f,
         (forall e, e ∈ load f -> id e ≠ Some entry_id) ->
         (delete_entry entry_id f).2 = f)
  ∧ stored (delete_entry 9 (Json [with_id 3])).2 = [backfill (with_id 3)]
  ∧ backfill (with_id 3) ≠ with_id 3
  ∧ (delete_entry 9 Absent).2 = Json []
  ∧ (delete_entry 9 (Unparseable "{")).2 = Json [].
Proof.
  assert (forall e, e ∈ load (Json [with_id 3]) -> id e ≠ Some 9) as Hnone.
  { intros e He. simpl in He. apply list_elem_of_singleton in He. subst e.
    simpl. discriminate. }
  split; [|split]; [| |by repeat split].
  - intros H. specialize (H 9 (Json [with_id 3]) Hnone). discriminate H.
  - intros H. specialize (H 9 (Json [with_id 3]) Hnone). discriminate H.
Qed.

(** C7, amended: the detail and the edit handler answer "not found" exactly
    when no entry of the loaded collection has the id, and leave the file
    as it is; the delete handler always redirects and rewrites the file as
    the loaded entries, which are the stored records with the new keys
    filled in, whose id differs from the given one.  On an id no entry has,
    the file is rewritten with the loaded collection itself: the collection
    that is loaded afterwards is the one that was loaded before, but the
    file is as it was only when it could be read and each of its records
    had the seven new keys already. *)
Theorem missing_id_handling :
  (forall entry_id f,
     (entry_detail entry_id f).1 = NotFound
     <-> forall e, e ∈ load f -> id e ≠ Some entry_id)
  ∧ (forall entry_id f, (entry_detail entry_id f).2 = f)
  ∧ (forall secure_filename req entry_id f,
       (forall e, e ∈ load f -> id e ≠ Some entry_id) ->
       edit_entry secure_filename req entry_id f = (NotFound, f))
  ∧ (forall secure_filename req entry_id f,
       (edit_entry secure_filename req entry_id f).1 = NotFound ->
       forall e, e ∈ load f -> id e ≠ Some entry_id)
  ∧ (forall entry_id f,
       delete_entry entry_id f
       = (Redirect "index" None,
          Json (filter (fun e => id e ≠ Some entry_id) (load f))))
  ∧ (forall entry_id f,
       (forall e, e ∈ load f -> id e ≠ Some entry_id) ->
       delete_entry entry_id f = (Redirect "index" None, Json (load f))
       ∧ load (delete_entry entry_id f).2 = load f)
  ∧ (forall entry_id f,
       stored (delete_entry entry_id f).2
       = filter (fun e => id e ≠ Some entry_id) (backfill <$> stored f))
  ∧ (forall entry_id f,
       (forall e, e ∈ load f -> id e ≠ Some entry_id) ->
       stored (delete_entry entry_id f).2 = backfill <$> stored f
       ∧ ((delete_entry entry_id f).2 = f
          <-> exists records,
                f = Json records ∧ forall r, r ∈ records -> has_new_keys r)).
Proof.
  repeat apply conj.
  - apply entry_detail_not_found.
  - apply entry_detail_file.
  - intros sf req entry_id f Hnone. apply find_entry_None in Hnone.
    destruct (edit_entry_cases sf req entry_id f) as [[_ H]|(i & e & Hf & _)];
      [done | congruence].
  - intros sf req entry_id f Hresp. apply find_entry_None.
    destruct (edit_entry_cases sf req entry_id f)
      as [[H _]|(i & e & _ & [[_ [v H]]|[(_ & _ & H)|(t & _ & _ & H)]])];
      [done|rewrite H in Hresp; discriminate..].
  - done.
  - intros entry_id f Hnone.
    unfold delete_entry, mbind, M_bind, load_entries, save_entries. simpl.
    rewrite filter_id_differs by done. split; [done|]. apply backfill_load.
  - intros entry_id f. by rewrite <- load_stored.
  - intros entry_id f Hnone.
    assert ((delete_entry entry_id f).2 = Json (load f)) as Hfile.
    { unfold delete_entry, mbind, M_bind, load_entries, save_entries. simpl.
      by rewrite filter_id_differs. }
    rewrite Hfile. split; [apply load_stored|]. split.
    + intros Hf. destruct f as [| |records]; [done..|]. exists records.
      split; [done|]. injection Hf as Hf. intros r Hr.
      apply backfill_fixed_iff. by apply (proj1 (fmap_fixed backfill records) Hf).
    + intros (records & -> & Hkeys). simpl. f_equal. apply fmap_fixed.
      intros r Hr. by apply backfill_fixed_iff, Hkeys.
Qed.

Lemma missing_id_handling_witness :
  entry_detail 9 (Json [with_id 3]) = (NotFound, Json [with_id 3])
  ∧ edit_entry (fun s => s) (Request POST ∅ ∅ None "2024-03-01" "2024-03-01T00:00:00") 9
      (Json [with_id 3])
    = (NotFound, Json [with_id 3])
  ∧ load (delete_entry 9 (Json [with_id 3])).2 = load (Json [with_id 3])
  ∧ load (delete_entry 9 Absent).2 = load Absent
  ∧ stored (delete_entry 9 (Json [with_id 3])).2
    = backfill <$> stored (Json [with_id 3]).
Proof.
  destruct missing_id_handling
    as (Hdetail & Hfile & Hedit & _ & _ & Hdelete & _ & Hstored).
  assert (forall e, e ∈ load (Json [with_id 3]) -> id e ≠ Some 9) as Hnone.
  { intros e He. simpl in He. apply list_elem_of_singleton in He. subst e.
    simpl. discriminate. }
  assert (forall e, e ∈ load Absent -> id e ≠ Some 9) as Hnone'.
  { intros e He. simpl in He. apply elem_of_nil in He. destruct He. }
  split; [|split; [|split; [|split]]].
  - apply injective_projections; simpl.
    + apply (proj2 (Hdetail 9 (Json [with_id 3])) Hnone).
    + apply (Hfile 9 (Json [with_id 3])).
  - apply (Hedit _ _ 9 (Json [with_id 3]) Hnone).
  - apply (Hdelete 9 (Json [with_id 3]) Hnone).
  - apply (Hdelete 9 Absent Hnone').
  - apply (Hstored 9 (Json [with_id 3]) Hnone).
Defined.

(** C9: whatever is submitted, the edit handler leaves the [id] and the
    [created_at] of every entry as they are, in the loaded collection and
    against the stored records, and changes at most the entry it found for
    the id: every other entry of the loaded collection, and so every entry
    with another id, is loaded unchanged afterwards. *)
Theorem edit_entry_frame secure_filename req entry_id f :
  let f' := (edit_entry secure_filename req entry_id f).2 in
  id <$> load f' = id <$> load f
  ∧ created_at <$> load f' = created_at <$> load f
  ∧ id <$> load f' = id <$> stored f
  ∧ created_at <$> load f' = created_at <$> stored f
  ∧ (load f' = load f
     ∨ exists i e e', find_entry entry_id (load f) = Some (i, e)
         ∧ load f' = <[i := e']> (load f)
         ∧ id e' = id e ∧ created_at e' = created_at e)
  ∧ (forall j e, load f !! j = Some e -> id e ≠ Some entry_id -> load f' !! j = Some e).
Proof.
  intros f'.
  assert (id <$> load f = id <$> stored f) as Hid0.
  { destruct f; simpl; try done. rewrite <- list_fmap_compose. by apply list_fmap_ext. }
  assert (created_at <$> load f = created_at <$> stored f) as Hcr0.
  { destruct f; simpl; try done. rewrite <- list_fmap_compose. by apply list_fmap_ext. }
  assert (load f' = load f
          ∨ exists i e e', find_entry entry_id (load f) = Some (i, e)
              ∧ load f' = <[i := e']> (load f)
              ∧ id e' = id e ∧ created_at e' = created_at e) as Hcases.
  { subst f'.
    destruct (edit_entry_cases secure_filename req entry_id f)
      as [[_ H]|(i & e & Hf & [[_ [v H]]|[(_ & _ & H)|(t & _ & _ & H)]])];
      rewrite H; simpl; try (by left).
    right. exists i, e, (update_from_form secure_filename req t (ensure_keys e)).
    split; [done|]. split; [|done].
    apply (load_edited secure_filename req t i (ensure_keys e) f). }
  destruct Hcases as [Heq|(i & e & e' & Hf & Hl & Hid & Hcr)].
  - rewrite Heq. repeat split; try done. by left.
  - pose proof (find_entry_Some _ _ _ _ Hf) as [Hi Hide].
    assert (id <$> load f' = id <$> load f) as Hids.
    { rewrite Hl, list_fmap_insert. apply list_insert_id.
      by rewrite list_lookup_fmap, Hi, Hid. }
    assert (created_at <$> load f' = created_at <$> load f) as Hcrs.
    { rewrite Hl, list_fmap_insert. apply list_insert_id.
      by rewrite list_lookup_fmap, Hi, Hcr. }
    repeat split; try congruence.
    + right. by exists i, e, e'.
    + intros j e0 Hj Hne. rewrite Hl.
      destruct (decide (i = j)) as [->|Hij]; [congruence|].
      by rewrite list_lookup_insert_ne.
Qed.

Lemma edit_entry_frame_witness :
  let req := Request POST ∅ {["title" := "New title"]} None "2024-03-01" "2024-03-01T00:00:00" in
  let f := Json [with_id 3; with_id 7] in
  load (edit_entry (fun s => s) req 3 f).2 !! 1%nat = Some (backfill (with_id 7)).
Proof.
  intros req f.
  destruct (edit_entry_frame (fun s => s) req 3 f) as (_ & _ & _ & _ & _ & Hother).
  apply (Hother 1%nat (backfill (with_id 7))); [reflexivity|].
  simpl. discriminate.
Defined.

(** ** Sorted lists *)

Lemma StronglySorted_weaken {A} (R R' : A -> A -> Prop) l :
  (forall a b, a ∈ l -> b ∈ l -> R a b -> R' a b) ->
  StronglySorted R l -> StronglySorted R' l.
Proof.
  intros HR Hl. induction Hl as [|x l Hl IH Hx]; constructor.
  - apply IH. intros a b Ha Hb. apply HR; apply elem_of_cons; by right.
  - apply Forall_forall. intros b Hb. rewrite Forall_forall in Hx.
    apply HR; [apply elem_of_cons; by left | apply elem_of_cons; by right | by apply Hx].
Qed.


Lemma py_sorted_perm {A K} (lt : K -> K -> bool) (key : A -> K) reverse l :
  py_sorted lt key reverse l ≡ₚ l.
Proof. apply sort_stable_perm. Qed.

Lemma elem_of_py_sorted {A K} (lt : K -> K -> bool) (key : A -> K) reverse l a :
  a ∈ py_sorted lt key reverse l <-> a ∈ l.
Proof. by rewrite py_sorted_perm. Qed.

Lemma py_sorted_sorted {A K} (lt : K -> K -> bool) `{!PyOrder lt} (key : A -> K) reverse l :
  StronglySorted (key_le (rev_lt lt reverse) key) (py_sorted lt key reverse l).
Proof. apply sort_stable_sorted. apply _. Qed.

(** ** The dream set *)

(** Membership of a given text in a given list. *)
Ltac in_list := by apply (bool_decide_unpack _).

Lemma intersects_iff (keywords : gset string) (ts : list string) :
  intersects keywords ts = true <-> exists t, t ∈ ts ∧ t ∈ keywords.
Proof.
  unfold intersects. rewrite bool_decide_eq_true. split.
  - intros [t Ht]%set_choose_L. exists t.
    apply elem_of_intersection in Ht as [Hk Ht].
    by apply elem_of_list_to_set in Ht.
  - intros (t & Ht & Hk). apply (non_empty_inhabited_L t).
    apply elem_of_intersection. split; [done|]. by apply elem_of_list_to_set.
Qed.

Lemma elem_of_lower_tags t e :
  t ∈ lower_tags e <-> exists t0, t0 ∈ default [] (tags e) ∧ t = PyStr.lower t0.
Proof.
  unfold lower_tags. rewrite list_elem_of_fmap.
  split; intros (t0 & ? & ?); by exists t0.
Qed.

(** The test of the gallery, in the words of the specification. *)
Lemma gallery_is_dream_iff e :
  Gallery.is_dream e = true
  <-> PyStr.lower (get_or (category e) "") ∈ ["goal"; "goals"; "dreams"; "dreamboard"]
      ∨ exists t, t ∈ default [] (tags e)
          ∧ PyStr.lower t ∈ ["dream"; "dreams"; "goal"; "goals"; "manifest"; "manifestation"].
Proof.
  unfold Gallery.is_dream, Gallery.dream_categories, Gallery.dream_keywords.
  rewrite <- (elem_of_list_to_set (C:=gset string)).
  destruct (bool_decide _) eqn:Hcat.
  - apply bool_decide_eq_true in Hcat. split; [by left | done].
  - apply bool_decide_eq_false in Hcat.
    destruct (intersects _ _) eqn:Hint.
    + apply intersects_iff in Hint as (t & (t0 & Ht0 & ->)%elem_of_lower_tags & Hk).
      split; [|done]. intros _. right. exists t0. split; [done|].
      by apply elem_of_list_to_set in Hk.
    + split; [done|]. intros [?|(t0 & Ht0 & Hk)]; [done|].
      assert (intersects (list_to_set ["dream"; "dreams"; "goal"; "goals"; "manifest";
                                         "manifestation"]) (lower_tags e) = true) as H.
      { apply intersects_iff. exists (PyStr.lower t0).
        split; [apply elem_of_lower_tags; by exists t0 | by apply elem_of_list_to_set]. }
      congruence.
Qed.

(** The test of the dreamboard: its keyword set has five words, "dreams" is
    not among them. *)
Lemma dreamboard_is_dream_iff e :
  Dreamboard.is_dream e = true
  <-> PyStr.lower (get_or (category e) "") ∈ ["goal"; "goals"]
      ∨ exists t, t ∈ default [] (tags e)
          ∧ PyStr.lower t ∈ ["dream"; "goal"; "goals"; "manifest"; "manifestation"].
Proof.
  unfold Dreamboard.is_dream, Dreamboard.dream_categories, Dreamboard.dream_keywords.
  rewrite orb_true_iff, bool_decide_eq_true, intersects_iff, elem_of_list_to_set.
  apply or_iff_compat_l. split.
  - intros (t & (t0 & Ht0 & ->)%elem_of_lower_tags & Hk). exists t0.
    split; [done|]. by apply elem_of_list_to_set in Hk.
  - intros (t0 & Ht0 & Hk). exists (PyStr.lower t0).
    split; [apply elem_of_lower_tags; by exists t0 | by apply elem_of_list_to_set].
Qed.

Lemma elem_of_compute_dream_entries e entries :
  e ∈ compute_dream_entries entries <-> e ∈ entries ∧ Gallery.is_dream e = true.
Proof.
  unfold compute_dream_entries. rewrite elem_of_py_sorted, list_elem_of_filter. tauto.
Qed.

Lemma ensure_dream_fields_load f e : e ∈ load f -> Dreamboard.ensure_dream_fields e = e.
Proof.
  destruct f as [| |records]; simpl; try (intros H; by apply elem_of_nil in H).
  intros (r & -> & _)%list_elem_of_fmap.
  unfold Dreamboard.ensure_dream_fields, backfill. simpl.
  by rewrite !setdefault_default.
Qed.

(** On a loaded collection and without filters the dreamboard shows the
    entries its test selects. *)
Lemma elem_of_dreamboard_entries f e :
  e ∈ Dreamboard.entries None None (load f)
  <-> e ∈ load f ∧ Dreamboard.is_dream e = true.
Proof.
  unfold Dreamboard.entries, Dreamboard.apply_filter.
  rewrite elem_of_py_sorted, list_elem_of_fmap. split.
  - intros (e0 & -> & [Hd He]%list_elem_of_filter).
    by rewrite (ensure_dream_fields_load f e0 He).
  - intros [He Hd]. exists e. split; [by rewrite (ensure_dream_fields_load f e He)|].
    by apply list_elem_of_filter.
Qed.

(** An entry of the category "dreams" or "dreamboard" without a keyword
    among its tags is in the dream set of the gallery and not on the
    dreamboard. *)
Lemma dreams_category_asymmetry f e :
  e ∈ load f ->
  PyStr.lower (get_or (category e) "") ∈ ["dreams"; "dreamboard"] ->
  (forall t, t ∈ default [] (tags e) ->
     PyStr.lower t ∉ ["dream"; "dreams"; "goal"; "goals"; "manifest"; "manifestation"]) ->
  e ∈ compute_dream_entries (load f) ∧ e ∉ Dreamboard.entries None None (load f).
Proof.
  intros He Hcat Htags. split.
  - apply elem_of_compute_dream_entries. split; [done|].
    apply gallery_is_dream_iff. left.
    apply elem_of_cons in Hcat as [->|Hcat]; [in_list|].
    apply list_elem_of_singleton in Hcat as ->. in_list.
  - rewrite elem_of_dreamboard_entries, dreamboard_is_dream_iff.
    intros [_ [Hcat'|(t & Ht & Hk)]].
    + apply elem_of_cons in Hcat as [Hc|Hc]; [|apply list_elem_of_singleton in Hc];
        rewrite Hc in Hcat'; by apply (bool_decide_pack _) in Hcat'.
    + apply (Htags t Ht).
      repeat (apply elem_of_cons in Hk as [->|Hk]; [in_list|]).
      by apply elem_of_nil in Hk.
Qed.

(** C1, where the program departs from it: an entry of the category "Art"
    tagged "dreams" is in the dream set the gallery page shows, since
    "dreams" is one of the six keywords of [compute_dream_entries], and the
    dreamboard page, whose keyword set lacks "dreams", does not show it. *)
Theorem dreamboard_misses_dreams_tag :
  let e := tagged "Art" ["dreams"] in
  let req := Request GET ∅ ∅ None "2024-03-01" "2024-03-01T00:00:00" in
  Gallery.is_dream e = true
  ∧ Dreamboard.is_dream e = false
  ∧ backfill e ∈ compute_dream_entries (load (Json [e]))
  ∧ Dreamboard.entries None None (load (Json [e])) = []
  ∧ (exists side, (index (Json [e])).1
                  = Render "index.html" (IndexView [] [backfill e] [] [backfill e] side))
  ∧ (exists side, (dreamboard req (Json [e])).1
                  = Render "dreamboard.html"
                      (DreamboardView [] [] ["High"; "Medium"; "Low"] None None side)).
Proof.
  intros e req. split; [by vm_compute|]. split; [by vm_compute|].
  split; [|split; [by vm_compute|]].
  - apply elem_of_compute_dream_entries. split; [|by vm_compute].
    simpl. by apply list_elem_of_singleton.
  - split; eexists; vm_compute; reflexivity.
Qed.

(** ** Milestones *)

Lemma milestone_prog_cases e :
  Milestones.prog e
  = match dream_progress e with
    | None => 0
    | Some (PInt n) => n
    | Some (PStr s) => default 0 (PyStr.int s)
    end.
Proof.
  unfold Milestones.prog, Milestones.prog_raw.
  destruct (dream_progress e) as [[n|[|c s]]|]; done.
Qed.

Lemma is_milestone_iff e :
  Milestones.is_milestone e = true
  <-> 80 ≤ Milestones.prog e
      ∨ exists t, t ∈ default [] (tags e) ∧ PyStr.lower t = "milestone".
Proof.
  unfold Milestones.is_milestone.
  rewrite orb_true_iff, Z.leb_le, bool_decide_eq_true, elem_of_lower_tags.
  apply or_iff_compat_l. split; intros (t & ? & ?); by exists t.
Qed.

Lemma milestone_key_le a b :
  key_le (pair_lt Z.ltb String.ltb) Milestones.sort_key a b <-> milestone_before a b.
Proof.
  unfold key_le, pair_lt, Milestones.sort_key, milestone_before. simpl.
  rewrite orb_false_iff, andb_false_iff, negb_false_iff, Z.ltb_ge, Z.ltb_lt.
  split.
  - intros [H1 [H2|H2]]; [left; lia|].
    destruct (decide (Milestones.prog a = Milestones.prog b)); [by right | left; lia].
  - intros [H|[H1 H2]].
    + split; [lia | left; lia].
    + split; [lia | by right].
Qed.

(** C3: the milestone page shows exactly the entries (each as often as the
    list has it) whose progress, read as an integer with 0 for a missing,
    empty or unreadable value, is at least 80 or which carry a tag that is
    "milestone" in lower case; they are ordered by falling progress and,
    among equal progress, by rising target date, the empty date first, and
    entries that agree on both keep the order of the list; three entries
    with progress 90, 50 and 85 and no milestone tag give the first and the
    third, in that order. *)
Theorem milestones_selected_and_sorted :
  (forall entries,
     Milestones.entries entries
     ≡ₚ filter (fun e => 80 ≤ Milestones.prog e
                         ∨ Exists (fun t => PyStr.lower t = "milestone") (default [] (tags e)))
               entries)
  ∧ (forall entries e,
       e ∈ Milestones.entries entries
       <-> e ∈ entries
           ∧ (80 ≤ Milestones.prog e
              ∨ exists t, t ∈ default [] (tags e) ∧ PyStr.lower t = "milestone"))
  ∧ (forall e,
       Milestones.prog e
       = match dream_progress e with
         | None => 0
         | Some (PInt n) => n
         | Some (PStr s) => default 0 (PyStr.int s)
         end)
  ∧ (forall entries, StronglySorted milestone_before (Milestones.entries entries))
  ∧ (forall s, String.ltb s "" = false)
  ∧ (forall entries k,
       filter (fun e => Milestones.sort_key e = k) (Milestones.entries entries)
       = filter (fun e => Milestones.sort_key e = k)
           (filter (fun e => Milestones.is_milestone e = true) entries))
  ∧ (forall e1 e2 e3,
       Milestones.prog e1 = 90 -> Milestones.prog e2 = 50 -> Milestones.prog e3 = 85 ->
       (forall e t, e ∈ [e1; e2; e3] -> t ∈ default [] (tags e) ->
                    PyStr.lower t ≠ "milestone") ->
       Milestones.entries [e1; e2; e3] = [e1; e3]).
Proof.
  repeat apply conj.
  - intros entries. unfold Milestones.entries. rewrite py_sorted_perm.
    erewrite list_filter_iff; [reflexivity|]. intros e. simpl.
    rewrite is_milestone_iff, Exists_exists. done.
  - intros entries e. unfold Milestones.entries.
    rewrite elem_of_py_sorted, list_elem_of_filter, is_milestone_iff. tauto.
  - apply milestone_prog_cases.
  - intros entries. unfold Milestones.entries.
    eapply StronglySorted_weaken; [|apply py_sorted_sorted; apply _].
    intros a b _ _. apply milestone_key_le.
  - intros [|c s]; done.
  - intros entries k. unfold Milestones.entries, py_sorted.
    apply sort_stable_same_key. apply _.
  - intros e1 e2 e3 H1 H2 H3 Htags.
    assert (forall e, e ∈ [e1; e2; e3] ->
                      Milestones.is_milestone e = (80 <=? Milestones.prog e)) as His.
    { intros e He. unfold Milestones.is_milestone.
      rewrite (bool_decide_eq_false_2 ("milestone" ∈ lower_tags e)); [apply orb_false_r|].
      intros (t & Ht & Heq)%elem_of_lower_tags. by eapply Htags. }
    unfold Milestones.entries.
    rewrite !filter_cons, filter_nil.
    rewrite !decide_bool_decide.
    rewrite (His e1), (His e2), (His e3), H1, H2, H3
      by (repeat first [apply list_elem_of_here | apply list_elem_of_further]).
    simpl. unfold py_sorted. simpl.
    unfold rev_lt, pair_lt, Milestones.sort_key. simpl. by rewrite H1, H3.
Qed.

Lemma milestones_selected_and_sorted_witness :
  let p n := Entry (Some n) None None None None None None None None None None None None
               (Some (PInt n)) in
  Milestones.entries [p 90; p 50; p 85] = [p 90; p 85].
Proof.
  intros p.
  destruct milestones_selected_and_sorted as (_ & _ & _ & _ & _ & _ & H).
  apply (H (p 90) (p 50) (p 85)); try reflexivity.
  intros e t He Ht.
  assert (tags e = None) as Hnone.
  { apply elem_of_cons in He as [->|He]; [reflexivity|].
    apply elem_of_cons in He as [->|He]; [reflexivity|].
    apply list_elem_of_singleton in He. subst e. reflexivity. }
  rewrite Hnone in Ht. simpl in Ht. apply elem_of_nil in Ht. destruct Ht.
Defined.

(** ** The timeline *)

Lemma StronglySorted_strict {K} (lt : K -> K -> bool) `{!PyOrder lt} (l : list K) :
  StronglySorted (fun a b => lt a b = false) l -> NoDup l ->
  StronglySorted (fun a b => lt b a = true) l.
Proof.
  induction 1 as [|x l Hl IH Hx]; intros Hnd; [constructor|].
  apply NoDup_cons in Hnd as [Hx' Hnd]. constructor; [by apply IH|].
  apply Forall_forall. intros b Hb. rewrite Forall_forall in Hx.
  destruct (lt b x) eqn:E; [done|].
  assert (x = b) as -> by (apply (lt_total (lt:=lt)); [by apply Hx | done]).
  done.
Qed.

Lemma Forall2_fmap_eq {A B} (f : B -> A) (R : A -> B -> Prop) l k :
  Forall2 R l k -> (forall x y, R x y -> f y = x) -> f <$> k = l.
Proof.
  intros H Hf. induction H as [|x y l k Hxy _ IH]; [done|].
  rewrite fmap_cons. by rewrite (Hf x y Hxy), IH.
Qed.

Lemma Forall2_elem_of_r {A B} (R : A -> B -> Prop) l k y :
  Forall2 R l k -> y ∈ k -> exists x, x ∈ l ∧ R x y.
Proof.
  intros H [i Hi]%list_elem_of_lookup_1.
  destruct (Forall2_lookup_r _ _ _ _ _ H Hi) as (x & Hx & Hxy).
  exists x. split; [by eapply list_elem_of_lookup_2 | done].
Qed.

Lemma filter_singleton_in_block y m e :
  filter (in_block y m) [e] = if decide (in_block y m e) then [e] else [].
Proof. rewrite filter_cons, filter_nil. done. Qed.

Section Grouping.
Implicit Types (g : gmap string (gmap string (list entry))) (e : entry).
Implicit Types (y m : string) (l : list entry).

Lemma at_month_group_step g e y m :
  Timeline.at_month (Timeline.at_year (Timeline.group_step g e) y) m
  = Timeline.at_month (Timeline.at_year g y) m ++ filter (in_block y m) [e].
Proof.
  rewrite filter_singleton_in_block. unfold Timeline.group_step.
  destruct (Timeline.long_date e) eqn:Hlong; simpl.
  - destruct (decide (in_block y m e)) as [(_ & <- & <-)|Hb].
    + unfold Timeline.at_year at 1. rewrite lookup_insert_eq. simpl.
      unfold Timeline.at_month at 1. by rewrite lookup_insert_eq.
    + rewrite app_nil_r.
      destruct (decide (Timeline.year_of e = y)) as [<-|Hy].
      * unfold Timeline.at_year at 1. rewrite lookup_insert_eq. simpl.
        unfold Timeline.at_month at 1. rewrite lookup_insert_ne; [done|].
        intros Hm. by apply Hb.
      * unfold Timeline.at_year at 1. by rewrite lookup_insert_ne.
  - rewrite decide_False; [by rewrite app_nil_r|].
    intros [? _]. congruence.
Qed.

Lemma at_month_foldl l g y m :
  Timeline.at_month (Timeline.at_year (foldl Timeline.group_step g l) y) m
  = Timeline.at_month (Timeline.at_year g y) m ++ filter (in_block y m) l.
Proof.
  revert g. induction l as [|e l IH]; intros g; simpl.
  - by rewrite filter_nil, app_nil_r.
  - rewrite IH, at_month_group_step, <- app_assoc. f_equal.
    by rewrite <- filter_app.
Qed.

Lemma year_keys_group_step g e y :
  is_Some (Timeline.group_step g e !! y)
  <-> is_Some (g !! y) ∨ (Timeline.long_date e = true ∧ Timeline.year_of e = y).
Proof.
  unfold Timeline.group_step.
  destruct (Timeline.long_date e) eqn:Hlong; simpl.
  - rewrite lookup_insert_is_Some.
    destruct (decide (Timeline.year_of e = y)); intuition auto.
  - intuition discriminate.
Qed.

Lemma year_keys_foldl l g y :
  is_Some (foldl Timeline.group_step g l !! y)
  <-> is_Some (g !! y)
      ∨ exists e, e ∈ l ∧ Timeline.long_date e = true ∧ Timeline.year_of e = y.
Proof.
  revert g. induction l as [|e l IH]; intros g; simpl.
  - split; [by left|]. intros [?|(e & He & _)]; [done|]. by apply elem_of_nil in He.
  - rewrite IH, year_keys_group_step. split.
    + intros [[?|[? ?]]|(e' & He' & ?)].
      * by left.
      * right. exists e. split; [apply elem_of_cons; by left | done].
      * right. exists e'. split; [apply elem_of_cons; by right | done].
    + intros [?|(e' & [->|He']%elem_of_cons & ?)].
      * left. by left.
      * left. by right.
      * right. by exists e'.
Qed.

Lemma month_keys_group_step g e y m :
  is_Some (Timeline.at_year (Timeline.group_step g e) y !! m)
  <-> is_Some (Timeline.at_year g y !! m) ∨ in_block y m e.
Proof.
  unfold Timeline.group_step, in_block.
  destruct (Timeline.long_date e) eqn:Hlong; simpl; [|intuition discriminate].
  destruct (decide (Timeline.year_of e = y)) as [<-|Hy].
  - unfold Timeline.at_year at 1. rewrite lookup_insert_eq. simpl.
    rewrite lookup_insert_is_Some.
    destruct (decide (Timeline.month_of e = m)); intuition auto.
  - unfold Timeline.at_year at 1. rewrite lookup_insert_ne by done.
    fold (Timeline.at_year g y). intuition congruence.
Qed.

Lemma month_keys_foldl l g y m :
  is_Some (Timeline.at_year (foldl Timeline.group_step g l) y !! m)
  <-> is_Some (Timeline.at_year g y !! m) ∨ exists e, e ∈ l ∧ in_block y m e.
Proof.
  revert g. induction l as [|e l IH]; intros g; simpl.
  - split; [by left|]. intros [?|(e & He & _)]; [done|]. by apply elem_of_nil in He.
  - rewrite IH, month_keys_group_step. split.
    + intros [[?|?]|(e' & He' & ?)].
      * by left.
      * right. exists e. split; [apply elem_of_cons; by left | done].
      * right. exists e'. split; [apply elem_of_cons; by right | done].
    + intros [?|(e' & [->|He']%elem_of_cons & ?)].
      * left. by left.
      * left. by right.
      * right. by exists e'.
Qed.

(** The dict the loop builds: which years and months it has and what
    their lists hold. *)
Lemma group_years l y :
  is_Some (Timeline.group l !! y)
  <-> exists e, e ∈ l ∧ Timeline.long_date e = true ∧ Timeline.year_of e = y.
Proof.
  unfold Timeline.group. rewrite year_keys_foldl, lookup_empty.
  split; [intros [[? ?]|?]; done | by right].
Qed.

Lemma group_months l y m :
  is_Some (Timeline.at_year (Timeline.group l) y !! m)
  <-> exists e, e ∈ l ∧ in_block y m e.
Proof.
  unfold Timeline.group. rewrite month_keys_foldl.
  unfold Timeline.at_year at 1. rewrite lookup_empty. simpl. rewrite lookup_empty.
  split; [intros [[? ?]|?]; done | by right].
Qed.

Lemma group_entries l y m :
  Timeline.at_month (Timeline.at_year (Timeline.group l) y) m = filter (in_block y m) l.
Proof.
  unfold Timeline.group. rewrite at_month_foldl.
  unfold Timeline.at_year at 1. rewrite lookup_empty. simpl.
  unfold Timeline.at_month. by rewrite lookup_empty.
Qed.
End Grouping.

Lemma elem_of_keys_desc {V} (d : gmap string V) k :
  k ∈ Timeline.keys_desc d <-> is_Some (d !! k).
Proof.
  unfold Timeline.keys_desc, sorted_strings.
  rewrite elem_of_py_sorted, list_elem_of_fmap. split.
  - intros ([k' v] & -> & H%elem_of_map_to_list). by exists v.
  - intros [v Hv]. exists (k, v). split; [done|]. by apply elem_of_map_to_list.
Qed.


Lemma elem_of_dated_entries l e :
  e ∈ Timeline.dated_entries l <-> e ∈ l ∧ Timeline.has_date e = true.
Proof.
  unfold Timeline.dated_entries. rewrite elem_of_py_sorted, list_elem_of_filter. tauto.
Qed.

Lemma long_date_has_date e : Timeline.long_date e = true -> Timeline.has_date e = true.
Proof. unfold Timeline.long_date, Timeline.has_date. by intros [? _]%andb_true_iff. Qed.




Lemma block_of_Some months m mb :
  Timeline.block_of months m = Some mb ->
  Timeline.month mb = m
  ∧ Timeline.entries mb = Timeline.at_month months m
  ∧ exists n, PyStr.int m = Some n
      ∧ Timeline.py_index Timeline.calendar_month_name n = Some (Timeline.month_name mb).
Proof.
  unfold Timeline.block_of. intros H.
  destruct (PyStr.int m) as [n|]; simpl in H; [|done].
  destruct (Timeline.py_index Timeline.calendar_month_name n) as [name|] eqn:Hn;
    simpl in H; [|done].
  injection H as <-. simpl. repeat split. by exists n.
Qed.

Lemma year_of_blocks_Some g y yb :
  Timeline.year_of_blocks g y = Some yb ->
  Timeline.year yb = y
  ∧ Forall2 (fun m mb => Timeline.block_of (Timeline.at_year g y) m = Some mb)
      (Timeline.keys_desc (Timeline.at_year g y)) (Timeline.months yb).
Proof.
  unfold Timeline.year_of_blocks. intros H.
  destruct (mapM _ _) as [mbs|] eqn:Hm; simpl in H; [|done].
  injection H as <-. simpl. split; [done|]. by apply mapM_Some.
Qed.

(** When the timeline is built. *)
Lemma block_of_is_Some months m :
  is_Some (Timeline.block_of months m)
  <-> is_Some (PyStr.int m ≫= Timeline.py_index Timeline.calendar_month_name).
Proof.
  unfold Timeline.block_of.
  destruct (PyStr.int m) as [n|]; simpl; [|done].
  destruct (Timeline.py_index Timeline.calendar_month_name n); simpl; [|done].
  split; intros _; by eexists.
Qed.

Lemma year_of_blocks_is_Some g y :
  is_Some (Timeline.year_of_blocks g y)
  <-> forall m, m ∈ Timeline.keys_desc (Timeline.at_year g y) ->
        is_Some (Timeline.block_of (Timeline.at_year g y) m).
Proof.
  unfold Timeline.year_of_blocks.
  pose proof (mapM_is_Some (Timeline.block_of (Timeline.at_year g y))
                (Timeline.keys_desc (Timeline.at_year g y))) as H.
  rewrite Forall_forall in H. simpl in H. rewrite <- H.
  destruct (mapM _ _) as [mbs|]; simpl.
  - split; intros _; by eexists.
  - split; intros [? ?]; done.
Qed.

Lemma timeline_years_is_Some l :
  is_Some (Timeline.timeline_years l) <-> months_readable l.
Proof.
  unfold Timeline.timeline_years.
  rewrite (mapM_is_Some (Timeline.year_of_blocks _)), Forall_forall. split.
  - intros H e He Hlong. unfold month_ok.
    set (g := Timeline.group (Timeline.dated_entries l)) in *.
    assert (e ∈ Timeline.dated_entries l) as Hd
      by (apply elem_of_dated_entries; split; [done | by apply long_date_has_date]).
    assert (Timeline.year_of e ∈ Timeline.keys_desc g) as Hy.
    { apply elem_of_keys_desc, group_years. by exists e. }
    specialize (H _ Hy). simpl in H.
    apply (block_of_is_Some (Timeline.at_year g (Timeline.year_of e))).
    apply (proj1 (year_of_blocks_is_Some g _) H).
    apply elem_of_keys_desc, group_months. exists e. by split.
  - intros Hr y Hy. simpl. apply year_of_blocks_is_Some.
    intros m Hm. apply block_of_is_Some.
    apply elem_of_keys_desc, group_months in Hm as (e & He & Hlong & _ & <-).
    apply elem_of_dated_entries in He as [He _]. by apply Hr.
Qed.








(** * Further properties *)

(** ** Splitting and stripping *)

Lemma split_nonempty sep s : PyStr.split sep s ≠ [].
Proof.
  destruct s as [|c s]; simpl; [done|].
  destruct (Ascii.eqb c sep); [done|]. by destruct (PyStr.split sep s).
Qed.

Lemma split_cons_other sep c s :
  c ≠ sep ->
  exists p ps, PyStr.split sep s = p :: ps ∧ PyStr.split sep (String c s) = String c p :: ps.
Proof.
  intros Hc. simpl. rewrite (proj2 (Ascii.eqb_neq c sep) Hc).
  destruct (PyStr.split sep s) as [|p ps] eqn:E; [by apply split_nonempty in E|].
  by exists p, ps.
Qed.

(** Splitting a text that has a separator between [a] and [b] gives the
    pieces of [a] and then those of [b]. *)
Lemma split_app sep a b :
  PyStr.split sep (a +:+ String sep b) = PyStr.split sep a ++ PyStr.split sep b.
Proof.
  induction a as [|c a IH].
  - simpl. by rewrite Ascii.eqb_refl.
  - change (String c a +:+ String sep b) with (String c (a +:+ String sep b)).
    destruct (decide (c = sep)) as [->|Hc].
    + simpl. rewrite Ascii.eqb_refl. by rewrite IH.
    + destruct (split_cons_other sep c a Hc) as (p & ps & Ha & ->).
      destruct (split_cons_other sep c (a +:+ String sep b) Hc) as (p' & ps' & Hab & ->).
      rewrite IH, Ha in Hab. simpl in Hab. by injection Hab as <- <-.
Qed.

Lemma split_no_sep sep s : ¬ occurs sep s -> PyStr.split sep s = [s].
Proof.
  induction s as [|c s IH]; intros Hs; [done|].
  simpl in Hs. assert (c ≠ sep) as Hc by tauto.
  destruct (split_cons_other sep c s Hc) as (p & ps & Hsplit & ->).
  rewrite IH in Hsplit by tauto. by injection Hsplit as <- <-.
Qed.

Lemma split_pieces_no_sep sep s p : p ∈ PyStr.split sep s -> ¬ occurs sep p.
Proof.
  revert p. induction s as [|c s IH]; intros p Hp.
  - apply list_elem_of_singleton in Hp as ->. simpl. tauto.
  - destruct (decide (c = sep)) as [->|Hc].
    + simpl in Hp. rewrite Ascii.eqb_refl in Hp.
      apply elem_of_cons in Hp as [->|Hp]; [simpl; tauto | by apply IH].
    + destruct (split_cons_other sep c s Hc) as (p0 & ps & Hs & Hcs).
      rewrite Hcs in Hp. apply elem_of_cons in Hp as [->|Hp].
      * simpl. intros [?|Hocc]; [done|]. revert Hocc. apply IH.
        rewrite Hs. apply list_elem_of_here.
      * apply IH. rewrite Hs. by apply list_elem_of_further.
Qed.

Lemma lstrip_no_char blank c s : ¬ occurs c s -> ¬ occurs c (PyStr.lstrip blank s).
Proof.
  induction s as [|a s IH]; simpl; [done|].
  intros Hs. destruct (blank a); [apply IH; tauto | simpl; tauto].
Qed.

Lemma rstrip_no_char blank c s : ¬ occurs c s -> ¬ occurs c (PyStr.rstrip blank s).
Proof.
  induction s as [|a s IH]; simpl; [done|].
  intros Hs. destruct (PyStr.rstrip blank s) as [|b r] eqn:E.
  - destruct (blank a); simpl; tauto.
  - simpl in *. tauto.
Qed.

Lemma rstrip_idem blank s :
  PyStr.rstrip blank (PyStr.rstrip blank s) = PyStr.rstrip blank s.
Proof.
  induction s as [|a s IH]; simpl; [done|].
  destruct (PyStr.rstrip blank s) as [|b r] eqn:E.
  - destruct (blank a) eqn:Ha; simpl; [done|]. by rewrite Ha.
  - simpl. simpl in IH. by rewrite IH.
Qed.

(** What is left of a text that starts with a character that is kept
    starts with it. *)
Lemma rstrip_keeps_head blank a s :
  blank a = false -> exists r, PyStr.rstrip blank (String a s) = String a r.
Proof.
  intros Ha. simpl. destruct (PyStr.rstrip blank s) as [|b r].
  - rewrite Ha. by eexists.
  - by eexists.
Qed.

Lemma lstrip_head blank s :
  PyStr.lstrip blank s = ""
  ∨ exists a r, PyStr.lstrip blank s = String a r ∧ blank a = false.
Proof.
  induction s as [|a s IH]; simpl; [by left|].
  destruct (blank a) eqn:Ha; [done|]. right. by exists a, s.
Qed.

Lemma lstrip_fixed blank a s : blank a = false -> PyStr.lstrip blank (String a s) = String a s.
Proof. intros Ha. simpl. by rewrite Ha. Qed.

Lemma strip_idem s : PyStr.strip (PyStr.strip s) = PyStr.strip s.
Proof.
  unfold PyStr.strip.
  destruct (lstrip_head PyStr.is_space s) as [->|(a & r & -> & Ha)]; [done|].
  destruct (rstrip_keeps_head PyStr.is_space a r Ha) as (r' & Hr).
  rewrite Hr, (lstrip_fixed _ _ _ Ha), <- Hr. apply rstrip_idem.
Qed.

(** Blanks in front of a text do not change what [strip] leaves of it. *)
Lemma strip_blank_cons a s : PyStr.is_space a = true -> PyStr.strip (String a s) = PyStr.strip s.
Proof. intros Ha. unfold PyStr.strip. simpl. by rewrite Ha. Qed.

(** ** The tags of a form *)

Lemma elem_of_parse_tags t raw :
  t ∈ parse_tags raw
  <-> exists p, p ∈ PyStr.split "," raw ∧ t = PyStr.strip p ∧ t ≠ "".
Proof.
  unfold parse_tags. rewrite list_elem_of_omap. split.
  - intros (p & Hp & H). exists p. split; [done|].
    destruct (PyStr.strip p) as [|a r] eqn:E; simpl in H; [done|].
    injection H as <-. done.
  - intros (p & Hp & -> & Hne). exists p. split; [done|].
    destruct (PyStr.strip p) as [|a r] eqn:E; [done|]. done.
Qed.

Lemma parse_tags_clean raw t : t ∈ parse_tags raw -> clean_tag t.
Proof.
  intros (p & Hp & -> & Hne)%elem_of_parse_tags.
  split; [done|]. split; [apply strip_idem|].
  apply rstrip_no_char, lstrip_no_char. by eapply split_pieces_no_sep.
Qed.

Lemma parse_piece_clean t :
  clean_tag t ->
  (let t' := PyStr.strip t in guard (PyStr.truthy t' = true);; Some t') = Some t.
Proof.
  intros (Hne & Hs & _). simpl. rewrite Hs. by destruct t.
Qed.

Lemma parse_piece_blank_clean t :
  clean_tag t ->
  (let t' := PyStr.strip (String " " t) in guard (PyStr.truthy t' = true);; Some t')
  = Some t.
Proof.
  intros Ht. rewrite strip_blank_cons by done. by apply parse_piece_clean.
Qed.

Lemma occurs_app c a b : occurs c (a +:+ b) <-> occurs c a ∨ occurs c b.
Proof. induction a as [|x a IH]; simpl; [tauto|]. rewrite IH. tauto. Qed.

Lemma omap_cons_Some {A B} (f : A -> option B) x y l :
  f x = Some y -> omap f (x :: l) = y :: omap f l.
Proof. intros H. simpl. by rewrite H. Qed.

(** The pieces of a text whose first piece is a clean tag, with or without
    a blank in front. *)
Lemma parse_tags_first t rest :
  clean_tag t ->
  parse_tags (t +:+ String "," rest) = t :: parse_tags rest
  ∧ parse_tags (String " " t +:+ String "," rest) = t :: parse_tags rest
  ∧ parse_tags t = [t]
  ∧ parse_tags (String " " t) = [t].
Proof.
  intros Ht.
  assert (¬ occurs "," t) as Hc by (by destruct Ht as (_ & _ & ?)).
  assert (¬ occurs "," (String " " t)) as Hc' by (simpl; intuition discriminate).
  unfold parse_tags.
  rewrite !split_app, (split_no_sep "," t Hc), (split_no_sep "," (String " " t) Hc').
  repeat split.
  - apply omap_cons_Some. by apply parse_piece_clean.
  - apply omap_cons_Some. by apply parse_piece_blank_clean.
  - apply (omap_cons_Some _ _ _ []). by apply parse_piece_clean.
  - apply (omap_cons_Some _ _ _ []). by apply parse_piece_blank_clean.
Qed.

(** Reading back the tags written with ", " between them, with or without
    a blank in front. *)
Lemma parse_join_clean ts :
  Forall clean_tag ts ->
  ts ≠ [] ->
  parse_tags (PyStr.join ", " ts) = ts
  ∧ parse_tags (String " " (PyStr.join ", " ts)) = ts.
Proof.
  induction 1 as [|t ts Ht Hts IH]; intros Hne; [done|].
  destruct (parse_tags_first t (String " " (PyStr.join ", " ts)) Ht)
    as (H1 & H2 & H3 & H4).
  destruct ts as [|t' ts]; [done|].
  destruct IH as [_ IH]; [done|].
  change (PyStr.join ", " (t :: t' :: ts))
    with (t +:+ String "," (String " " (PyStr.join ", " (t' :: ts)))).
  split.
  - by rewrite H1, IH.
  - change (String " " (t +:+ ?x)) with (String " " t +:+ x). by rewrite H2, IH.
Qed.

(** X1: the tags read from a form are never empty, have no blank at either
    end and no comma, whatever was typed; so are the tags of the entry
    [new_entry] saves. *)
Theorem form_tags_are_clean :
  (forall raw, Forall clean_tag (parse_tags raw))
  ∧ (forall secure_filename req f title0,
       method req = POST -> form req !! "title" = Some title0 ->
       exists e ts, (new_entry secure_filename req f).2 = Json (load f ++ [e])
         ∧ tags e = Some ts ∧ Forall clean_tag ts).
Proof.
  split.
  - intros raw. apply Forall_forall. intros t. apply parse_tags_clean.
  - intros sf req f t Hm Ht.
    unfold new_entry, mbind, M_bind, load_entries. rewrite Hm, Ht.
    eexists _, _. split; [reflexivity|]. split; [reflexivity|].
    apply Forall_forall. intros t'. apply parse_tags_clean.
Qed.

Lemma form_tags_are_clean_witness :
  exists e ts,
    (new_entry (fun s => s)
       (Request POST ∅ {["title" := "Sea"; "tags" := " blue, ,sky "]} None
          "2024-03-01" "2024-03-01T00:00:00") Absent).2
    = Json (load Absent ++ [e])
    ∧ tags e = Some ts ∧ Forall clean_tag ts.
Proof.
  destruct form_tags_are_clean as [_ H].
  apply (H (fun s => s) _ Absent "Sea"); reflexivity.
Defined.

(** X2: writing clean tags with ", " between them, as the edit page does,
    and reading the text back gives the same tags; so reading, writing and
    reading again changes nothing, and an edit that submits the tags as the
    page showed them keeps them. *)
Theorem tags_round_trip :
  (forall ts, Forall clean_tag ts -> parse_tags (PyStr.join ", " ts) = ts)
  ∧ (forall raw, parse_tags (PyStr.join ", " (parse_tags raw)) = parse_tags raw)
  ∧ (forall secure_filename req title0 e ts,
       tags e = Some ts -> Forall clean_tag ts ->
       form req !! "tags" = Some (PyStr.join ", " (default [] (tags e))) ->
       tags (update_from_form secure_filename req title0 e) = tags e).
Proof.
  assert (forall ts, Forall clean_tag ts -> parse_tags (PyStr.join ", " ts) = ts) as H.
  { intros [|t ts] Hts; [done|]. by apply parse_join_clean. }
  split; [done|]. split.
  - intros raw. apply H. apply Forall_forall. intros t. apply parse_tags_clean.
  - intros sf req t e ts He Hts Hform. simpl.
    unfold form_get. rewrite Hform, He. simpl. by rewrite H.
Qed.

Lemma tags_round_trip_witness :
  parse_tags (PyStr.join ", " ["blue"; "deep sea"]) = ["blue"; "deep sea"].
Proof.
  destruct tags_round_trip as [H _]. apply H.
  repeat constructor; try discriminate; simpl; intuition discriminate.
Defined.

Lemma last_app_singleton {A} (l : list A) x : last (l ++ [x]) = Some x.
Proof. apply last_snoc. Qed.

(** X3: a file name without a dot is never accepted, and a name with a dot
    is accepted exactly when the text after its last dot is png, jpg, jpeg
    or gif in any mix of upper and lower case. *)
Theorem allowed_file_by_extension :
  (forall filename, ¬ occurs "." filename -> allowed_file filename = false)
  ∧ (forall stem ext, ¬ occurs "." ext ->
       allowed_file (stem +:+ String "." ext)
       = bool_decide (PyStr.lower ext ∈ ["png"; "jpg"; "jpeg"; "gif"])).
Proof.
  split.
  - intros filename Hdot. unfold allowed_file. by rewrite split_no_sep.
  - intros stem ext Hdot. unfold allowed_file.
    rewrite split_app, (split_no_sep "." ext Hdot), last_app_singleton. simpl.
    rewrite length_app. simpl.
    destruct (PyStr.split "." stem) as [|p ps] eqn:E; [by apply split_nonempty in E|].
    simpl. replace (1 <? S (length ps + 1))%nat with true
      by (symmetry; apply Nat.ltb_lt; lia).
    simpl. apply bool_decide_ext. unfold ALLOWED_EXTENSIONS.
    apply elem_of_list_to_set.
Qed.

Lemma allowed_file_by_extension_witness :
  allowed_file "notes" = false ∧ allowed_file "a.b.JPG" = true.
Proof.
  destruct allowed_file_by_extension as [Hno Hext]. split.
  - apply Hno. simpl. intuition discriminate.
  - change "a.b.JPG" with ("a.b" +:+ String "." "JPG").
    rewrite Hext; [reflexivity|]. simpl. intuition discriminate.
Defined.

(** ** Creating, showing, editing and deleting *)

Lemma backfill_fixed f e : e ∈ load f -> backfill e = e.
Proof.
  destruct f as [| |records]; simpl; try (intros H; by apply elem_of_nil in H).
  intros (r & -> & _)%list_elem_of_fmap. apply backfill_idem.
Qed.

Lemma load_Json_fixed (l : list entry) :
  (forall e, e ∈ l -> backfill e = e) -> load (Json l) = l.
Proof.
  intros H. simpl. induction l as [|e l IH]; [done|].
  rewrite fmap_cons, (H e) by apply list_elem_of_here.
  f_equal. apply IH. intros e' He'. apply H. by apply list_elem_of_further.
Qed.

Lemma load_Json_filter (P : entry -> Prop) `{!forall e, Decision (P e)} f :
  load (Json (filter P (load f))) = filter P (load f).
Proof.
  apply load_Json_fixed. intros e [_ He]%list_elem_of_filter. by eapply backfill_fixed.
Qed.

Lemma find_entry_fresh entries e :
  id e = Some (next_id entries) ->
  find_entry (next_id entries) (entries ++ [e]) = Some (length entries, e).
Proof.
  intros Hid. unfold find_entry. rewrite list_find_app_r.
  - simpl. rewrite decide_True by done. done.
  - apply list_find_None, Forall_forall. intros e' He' Hid'.
    pose proof (next_id_above _ _ (id_in_existing_ids _ _ _ He' Hid')). lia.
Qed.

Lemma entry_detail_found entry_id f i e :
  find_entry entry_id (load f) = Some (i, e) ->
  entry_detail entry_id f = (Render "detail.html" (DetailView e), f).
Proof.
  intros Hfind. unfold entry_detail, mbind, M_bind, load_entries. rewrite Hfind.
  apply find_entry_Some in Hfind as [_ Hid]. by rewrite (truthy_entry_id _ _ Hid).
Qed.

Section Creating.
Variable secure_filename : string -> string.

Lemma new_entry_created req f title0 :
  method req = POST -> form req !! "title" = Some title0 ->
  exists e, new_entry secure_filename req f = (Redirect "index" None, Json (load f ++ [e]))
    ∧ id e = Some (next_id (load f)) ∧ title e = Some title0
    ∧ all_fields_present e ∧ backfill e = e.
Proof.
  intros Hm Ht. unfold new_entry, mbind, M_bind, load_entries. rewrite Hm, Ht.
  eexists. split; [reflexivity|]. unfold all_fields_present. simpl.
  repeat split; by eexists.
Qed.

(** X4: an entry created by [new_entry] has every key of the data model,
    carries the submitted title and the next id, and is the entry the
    detail page shows for that id. *)
Theorem created_entry_is_shown req f title0 :
  method req = POST -> form req !! "title" = Some title0 ->
  let f' := (new_entry secure_filename req f).2 in
  exists e, load f' = load f ++ [e]
    ∧ id e = Some (next_id (load f)) ∧ title e = Some title0
    ∧ all_fields_present e
    ∧ entry_detail (next_id (load f)) f' = (Render "detail.html" (DetailView e), f').
Proof.
  intros Hm Ht f'.
  destruct (new_entry_created req f title0 Hm Ht) as (e & Hnew & Hid & Htitle & Hall & Hb).
  assert (load f' = load f ++ [e]) as Hload.
  { unfold f'. rewrite Hnew. simpl snd. by apply load_append. }
  exists e. do 4 (split; [done|]).
  apply (entry_detail_found _ _ (length (load f))).
  rewrite Hload. by apply find_entry_fresh.
Qed.

(** X5: deleting the entry [new_entry] has just created gives back the
    collection that was loaded before, so the next entry created gets the
    id of the deleted one again. *)
Theorem create_then_delete_restores req f title0 :
  method req = POST -> form req !! "title" = Some title0 ->
  let n := next_id (load f) in
  let f' := (new_entry secure_filename req f).2 in
  delete_entry n f' = (Redirect "index" None, Json (load f))
  ∧ load (delete_entry n f').2 = load f
  ∧ next_id (load (delete_entry n f').2) = n.
Proof.
  intros Hm Ht n f'.
  destruct (new_entry_created req f title0 Hm Ht) as (e & Hnew & Hid & _ & _ & Hb).
  assert (load f' = load f ++ [e]) as Hload.
  { unfold f'. rewrite Hnew. simpl snd. by apply load_append. }
  assert (delete_entry n f' = (Redirect "index" None, Json (load f))) as Hdel.
  { unfold delete_entry, mbind, M_bind, load_entries, save_entries. simpl.
    rewrite Hload, filter_app, filter_id_differs.
    - rewrite filter_cons, filter_nil, decide_False; [by rewrite app_nil_r|].
      intros H. by apply H.
    - intros e' He' Hid'.
      pose proof (next_id_above _ _ (id_in_existing_ids _ _ _ He' Hid')). unfold n in *. lia. }
  rewrite Hdel. simpl snd. rewrite load_Json_load. done.
Qed.
End Creating.

Lemma created_entry_is_shown_witness :
  let req := Request POST ∅ {["title" := "Sea"]} None "2024-03-01" "2024-03-01T00:00:00" in
  let f' := (new_entry (fun s => s) req (Json [with_id 3])).2 in
  exists e, load f' = load (Json [with_id 3]) ++ [e]
    ∧ id e = Some 4 ∧ title e = Some "Sea".
Proof.
  intros req f'.
  destruct (created_entry_is_shown (fun s => s) req (Json [with_id 3]) "Sea")
    as (e & Hl & Hid & Ht & _); [reflexivity|reflexivity|].
  exists e. split; [exact Hl|]. split; [exact Hid | exact Ht].
Defined.

Lemma create_then_delete_restores_witness :
  let req := Request POST ∅ {["title" := "Sea"]} None "2024-03-01" "2024-03-01T00:00:00" in
  load (delete_entry 4 (new_entry (fun s => s) req (Json [with_id 3])).2).2
  = load (Json [with_id 3]).
Proof.
  intros req.
  destruct (create_then_delete_restores (fun s => s) req (Json [with_id 3]) "Sea")
    as (_ & H & _); [reflexivity|reflexivity|].
  exact H.
Defined.

(** X6: after [delete_entry] no entry of the collection has the id, the
    detail page of the id answers "not found", the entries that are left
    are the others in their order, and deleting the id once more changes
    nothing. *)
Theorem delete_entry_removes_id entry_id f :
  let f' := (delete_entry entry_id f).2 in
  load f' = filter (fun e => id e ≠ Some entry_id) (load f)
  ∧ Forall (fun e => id e ≠ Some entry_id) (load f')
  ∧ load f' `sublist_of` load f
  ∧ entry_detail entry_id f' = (NotFound, f')
  ∧ (delete_entry entry_id f').2 = f'.
Proof.
  intros f'.
  assert (load f' = filter (fun e => id e ≠ Some entry_id) (load f)) as Hload.
  { unfold f', delete_entry, mbind, M_bind, load_entries, save_entries. simpl snd.
    apply load_Json_filter. }
  assert (Forall (fun e => id e ≠ Some entry_id) (load f')) as Hnone.
  { rewrite Hload. apply Forall_forall. by intros e [? _]%list_elem_of_filter. }
  split; [done|]. split; [done|]. split; [rewrite Hload; apply sublist_filter|].
  rewrite Forall_forall in Hnone. split.
  - apply injective_projections; [|apply entry_detail_file].
    by apply entry_detail_not_found.
  - unfold delete_entry at 1, mbind, M_bind, load_entries, save_entries. simpl snd.
    rewrite filter_id_differs by done.
    unfold f', delete_entry, mbind, M_bind, load_entries, save_entries. simpl snd.
    f_equal. apply load_Json_filter.
Qed.

Lemma find_entry_insert entry_id (entries : list entry) i e e' :
  find_entry entry_id entries = Some (i, e) -> id e' = Some entry_id ->
  find_entry entry_id (<[i := e']> entries) = Some (i, e').
Proof.
  unfold find_entry. intros (Hi & _ & Hleast)%list_find_Some Hid.
  apply list_find_Some. split; [|split; [done|]].
  - apply list_lookup_insert_eq. by eapply lookup_lt_Some.
  - intros j y Hj Hlt. apply (Hleast j); [|done].
    by rewrite list_lookup_insert_ne in Hj by lia.
Qed.

Section Editing.
Variable secure_filename : string -> string.

(** X7: an edit submitted with a title for an id the collection has is
    saved and answered with a redirect, and the detail page of the id then
    shows the entry with the submitted title; without a submitted date the
    entry keeps its date and without an uploaded file its image path (the
    empty text where it had none). *)
Theorem edited_entry_is_shown req entry_id f title0 i e :
  find_entry entry_id (load f) = Some (i, e) ->
  method req = POST -> form req !! "title" = Some title0 ->
  let f' := (edit_entry secure_filename req entry_id f).2 in
  exists e',
    edit_entry secure_filename req entry_id f
    = (Redirect "entry_detail" (Some entry_id), f')
    ∧ entry_detail entry_id f' = (Render "detail.html" (DetailView e'), f')
    ∧ load f' = <[i := e']> (load f)
    ∧ id e' = Some entry_id ∧ title e' = Some title0
    ∧ (form req !! "date" = None -> date e' = Some (default "" (date e)))
    ∧ (image_file req = None -> image_path e' = Some (default "" (image_path e))).
Proof.
  intros Hfind Hm Ht f'.
  pose proof (find_entry_Some _ _ _ _ Hfind) as [Hi Hid].
  destruct (edit_entry_cases secure_filename req entry_id f)
    as [[Hnone _]|(i' & e0 & Hfind' & [[Hget _]|[(_ & Hno & _)|(t & _ & Ht' & Hedit)]])];
    try congruence.
  assert (i' = i ∧ e0 = e ∧ t = title0) as (-> & -> & ->) by (split_and!; congruence).
  set (e' := update_from_form secure_filename req title0 (ensure_keys e)) in *.
  assert (load f' = <[i := e']> (load f)) as Hload.
  { unfold f'. rewrite Hedit. simpl snd. apply load_edited. }
  exists e'. split; [unfold f'; by rewrite Hedit|].
  split.
  { apply (entry_detail_found _ _ i). rewrite Hload.
    by apply (find_entry_insert _ _ _ e). }
  split; [done|]. split; [done|]. split; [done|]. split.
  - intros Hdate. unfold e'. simpl. unfold form_get. by rewrite Hdate.
  - intros Himg. unfold e'. simpl. unfold uploaded_path. by rewrite Himg.
Qed.

Lemma edit_entry_ids req entry_id f :
  id <$> load (edit_entry secure_filename req entry_id f).2 = id <$> load f.
Proof.
  destruct (edit_entry_cases secure_filename req entry_id f)
    as [[_ H]|(i & e & Hf & [[_ [v H]]|[(_ & _ & H)|(t & _ & _ & H)]])];
    rewrite H; try done.
  simpl snd. rewrite load_edited, list_fmap_insert.
  apply find_entry_Some in Hf as [Hi Hid].
  apply list_insert_id. by rewrite list_lookup_fmap, Hi.
Qed.
End Editing.

Lemma edited_entry_is_shown_witness :
  let req := Request POST ∅ {["title" := "Sea"]} None "2024-03-01" "2024-03-01T00:00:00" in
  let f := Json [with_id 3; with_id 7] in
  exists e', entry_detail 7 (edit_entry (fun s => s) req 7 f).2
             = (Render "detail.html" (DetailView e'), (edit_entry (fun s => s) req 7 f).2)
    ∧ title e' = Some "Sea".
Proof.
  intros req f.
  destruct (edited_entry_is_shown (fun s => s) req 7 f "Sea" 1%nat (backfill (with_id 7)))
    as (e' & _ & Hd & _ & _ & Ht & _); [reflexivity..|].
  exists e'. split; [exact Hd | exact Ht].
Defined.

Lemma omap_id_fmap (l : list entry) : omap id l = omap (fun o => o) (id <$> l).
Proof.
  induction l as [|e l IH]; [done|]. rewrite fmap_cons.
  change (omap id (e :: l))
    with (match id e with Some y => y :: omap id l | None => omap id l end).
  by rewrite IH.
Qed.

Lemma omap_cons_None {A B} (f : A -> option B) x l :
  f x = None -> omap f (x :: l) = omap f l.
Proof. intros H. simpl. by rewrite H. Qed.

Lemma omap_id_filter entry_id (l : list entry) :
  omap id (filter (fun e => id e ≠ Some entry_id) l)
  = filter (fun n => n ≠ entry_id) (omap id l).
Proof.
  induction l as [|e l IH]; [done|].
  rewrite filter_cons. destruct (decide (id e ≠ Some entry_id)) as [Hne|Heq].
  - destruct (id e) as [n|] eqn:E.
    + rewrite !(omap_cons_Some id e n) by done.
      rewrite filter_cons, decide_True by congruence. by rewrite IH.
    + rewrite !(omap_cons_None id e) by done. apply IH.
  - apply dec_stable in Heq.
    rewrite (omap_cons_Some id e entry_id) by done.
    rewrite filter_cons, decide_False by tauto. apply IH.
Qed.

(** X8: the ids of a collection stay pairwise distinct under [delete_entry]
    and under [edit_entry], whatever the id and the request. *)
Theorem ids_stay_unique :
  (forall entry_id f,
     ids_unique (load f) -> ids_unique (load (delete_entry entry_id f).2))
  ∧ (forall secure_filename req entry_id f,
       ids_unique (load f) ->
       ids_unique (load (edit_entry secure_filename req entry_id f).2)).
Proof.
  unfold ids_unique. split.
  - intros entry_id f Hu.
    unfold delete_entry, mbind, M_bind, load_entries, save_entries. simpl snd.
    rewrite load_Json_filter, omap_id_filter. by apply NoDup_filter.
  - intros sf req entry_id f Hu.
    by rewrite omap_id_fmap, edit_entry_ids, <- omap_id_fmap.
Qed.

Lemma ids_stay_unique_witness :
  ids_unique (load (delete_entry 3 (Json [with_id 3; with_id 7])).2).
Proof.
  destruct ids_stay_unique as [H _]. apply H.
  unfold ids_unique. simpl. apply NoDup_cons. split.
  - intros Hin. apply (list_elem_of_singleton (A:=Z)) in Hin. discriminate Hin.
  - apply NoDup_singleton.
Defined.

Lemma max_from_snoc x l n : max_from x (l ++ [n]) = Z.max (max_from x l) n.
Proof. unfold max_from. by rewrite foldl_snoc. Qed.

(** X9: when the entry with the next id has been appended, the id after it
    is one more: entries created one after the other get consecutive
    ids. *)
Theorem next_id_counts_up entries e :
  id e = Some (next_id entries) -> next_id (entries ++ [e]) = next_id entries + 1.
Proof.
  intros Hid. destruct entries as [|e0 es].
  - simpl. rewrite Hid. done.
  - change ((e0 :: es) ++ [e]) with (e0 :: (es ++ [e])).
    rewrite !next_id_cons. rewrite next_id_cons in Hid.
    unfold existing_ids at 1. rewrite fmap_app. fold (existing_ids es).
    rewrite fmap_cons, fmap_nil, max_from_snoc, Hid. simpl. lia.
Qed.

Lemma next_id_counts_up_witness :
  next_id ([with_id 3; with_id 7] ++ [with_id 8]) = next_id [with_id 3; with_id 7] + 1.
Proof. apply next_id_counts_up. reflexivity. Defined.


(** ** The gallery and the dreamboard *)

Lemma filter_ext_in {A} (P Q : A -> Prop) `{!forall a, Decision (P a)}
    `{!forall a, Decision (Q a)} (l : list A) :
  (forall a, a ∈ l -> (P a <-> Q a)) -> filter P l = filter Q l.
Proof.
  induction l as [|x l IH]; intros Hext; [done|].
  rewrite !filter_cons.
  assert (P x <-> Q x) as Hx by (apply Hext, list_elem_of_here).
  rewrite IH by (intros a Ha; apply Hext; by apply list_elem_of_further).
  destruct (decide (P x)), (decide (Q x)); tauto.
Qed.

(** X10: the gallery page splits the loaded collection into the dream
    entries and the others: every entry is in exactly one of the two lists,
    as often as the collection has it; both lists have the later date
    first; the featured dreams are the first three dream entries and the
    featured reflections are at most three entries of the diary. *)
Theorem gallery_splits_collection f :
  exists regular dreams reflections featured side,
    index f = (Render "index.html" (IndexView regular dreams reflections featured side), f)
    ∧ regular ++ dreams ≡ₚ load f
    ∧ Forall (fun e => Gallery.is_dream e = false) regular
    ∧ Forall (fun e => Gallery.is_dream e = true) dreams
    ∧ StronglySorted date_desc regular
    ∧ StronglySorted date_desc dreams
    ∧ featured = take 3 dreams
    ∧ (length reflections <= 3)%nat
    ∧ Forall is_reflection reflections
    ∧ reflections ⊆ load f.
Proof.
  unfold index, mbind, M_bind, load_entries. simpl.
  eexists _, _, _, _, _. split; [reflexivity|].
  set (l := load f).
  assert (filter (fun e => e ∉ compute_dream_entries l) l
          = filter (fun e => ¬ (Gallery.is_dream e = true)) l) as Hreg.
  { apply filter_ext_in. intros e He. rewrite elem_of_compute_dream_entries. tauto. }
  repeat apply conj.
  - rewrite py_sorted_perm, Hreg. unfold compute_dream_entries.
    rewrite py_sorted_perm, Permutation_app_comm. apply filter_app_complement.
  - apply Forall_forall. intros e Hin.
    apply elem_of_py_sorted, list_elem_of_filter in Hin as [Hnot He].
    destruct (Gallery.is_dream e) eqn:Hd; [|done].
    destruct Hnot. by apply elem_of_compute_dream_entries.
  - apply Forall_forall. by intros e [_ ?]%elem_of_compute_dream_entries.
  - apply (py_sorted_sorted String.ltb date_key true).
  - apply (py_sorted_sorted String.ltb date_key true).
  - done.
  - rewrite length_take. lia.
  - apply Forall_take, Forall_forall.
    by intros e [? _]%elem_of_py_sorted%list_elem_of_filter.
  - intros e He. apply subseteq_take in He.
    by apply elem_of_py_sorted, list_elem_of_filter in He as [_ ?].
Qed.

Lemma elem_of_apply_filter field w (l : list entry) e :
  e ∈ Dreamboard.apply_filter field w l -> e ∈ l.
Proof.
  destruct w as [w|]; simpl; [|done]. by intros [_ ?]%list_elem_of_filter.
Qed.

Lemma dreamboard_is_dream_gallery e :
  Dreamboard.is_dream e = true -> Gallery.is_dream e = true.
Proof.
  rewrite dreamboard_is_dream_iff, gallery_is_dream_iff.
  intros [Hc|(t & Ht & Hk)].
  - left. repeat (apply elem_of_cons in Hc as [->|Hc]; [in_list|]).
    by apply elem_of_nil in Hc.
  - right. exists t. split; [done|].
    repeat (apply elem_of_cons in Hk as [->|Hk]; [in_list|]).
    by apply elem_of_nil in Hk.
Qed.

(** X11: whatever the filters, every entry the dreamboard shows for a
    loaded collection is one of the dream entries of the gallery. *)
Theorem dreamboard_within_dream_set current_theme current_priority f e :
  e ∈ Dreamboard.entries current_theme current_priority (load f) ->
  e ∈ compute_dream_entries (load f).
Proof.
  unfold Dreamboard.entries.
  intros He%elem_of_py_sorted%elem_of_apply_filter%elem_of_apply_filter.
  apply list_elem_of_fmap in He as (e0 & -> & [Hd He0]%list_elem_of_filter).
  rewrite (ensure_dream_fields_load f e0 He0).
  apply elem_of_compute_dream_entries. split; [done|].
  by apply dreamboard_is_dream_gallery.
Qed.

Lemma dreamboard_within_dream_set_witness :
  backfill (tagged "Goals" []) ∈ compute_dream_entries (load (Json [tagged "Goals" []])).
Proof.
  apply (dreamboard_within_dream_set None None (Json [tagged "Goals" []])).
  vm_compute. apply list_elem_of_here.
Defined.

Lemma board_key_le a b :
  key_le (pair_lt String.ltb String.ltb) Dreamboard.dream_sort_key a b
  <-> board_before a b.
Proof.
  unfold key_le, pair_lt, Dreamboard.dream_sort_key, board_before. simpl.
  rewrite orb_false_iff, andb_false_iff, negb_false_iff.
  set (ta := get_or (dream_target_date a) ""). set (tb := get_or (dream_target_date b) "").
  split.
  - intros [H1 [H2|H2]]; [by left|].
    destruct (String.ltb ta tb) eqn:E; [by left|].
    right. split; [|done]. by apply (lt_total (lt:=String.ltb)).
  - intros [H|[H1 H2]].
    + split; [by apply (lt_asym String.ltb) | by left].
    + rewrite H1. split; [apply lt_irrefl | by right].
Qed.

Lemma filter_comm {A} (P Q : A -> Prop) `{!forall a, Decision (P a)}
    `{!forall a, Decision (Q a)} (l : list A) :
  filter P (filter Q l) = filter Q (filter P l).
Proof.
  rewrite !list_filter_filter. apply list_filter_iff. intros a. tauto.
Qed.

(** X12: the entries of the dreamboard are ordered by target date and then
    by date, the empty text first; a theme or a priority filter shows the
    entries of the unfiltered page whose theme or priority is the wanted
    one without regard to case, in the order they have there. *)
Theorem dreamboard_filters_keep_order :
  (forall current_theme current_priority entries,
     StronglySorted board_before
       (Dreamboard.entries current_theme current_priority entries))
  ∧ (forall w current_priority entries,
       Dreamboard.entries (Some w) current_priority entries
       = filter (passes dream_theme w) (Dreamboard.entries None current_priority entries))
  ∧ (forall current_theme w entries,
       Dreamboard.entries current_theme (Some w) entries
       = filter (passes dream_priority w) (Dreamboard.entries current_theme None entries)).
Proof.
  split; [|split].
  - intros th pr l. unfold Dreamboard.entries.
    eapply StronglySorted_weaken;
      [|apply (py_sorted_sorted (pair_lt String.ltb String.ltb)); apply _].
    intros a b _ _. apply board_key_le.
  - intros w pr l. unfold Dreamboard.entries, py_sorted.
    rewrite filter_sort_stable by apply _. f_equal.
    destruct pr as [w'|]; simpl; [|done]. apply filter_comm.
  - intros th w l. unfold Dreamboard.entries, py_sorted.
    by rewrite filter_sort_stable by apply _.
Qed.

(** ** The sidebar *)

Lemma truthy_iff s : PyStr.truthy s = true <-> s ≠ "".
Proof. destruct s; simpl; split; congruence. Qed.

Lemma default_eq_nonempty (o : option string) c :
  c ≠ "" -> (default "" o = c <-> o = Some c).
Proof. intros Hc. destruct o; simpl; split; congruence. Qed.

Lemma sorted_set_asc (l : list string) :
  StronglySorted text_asc (sorted_strings false (elements (list_to_set l : gset string))).
Proof.
  unfold text_asc.
  apply (StronglySorted_strict (rev_lt String.ltb true)).
  - apply (py_sorted_sorted String.ltb (fun s => s) false).
  - unfold sorted_strings. rewrite py_sorted_perm. apply NoDup_elements.
Qed.

Lemma elem_of_sorted_set (l : list string) c :
  c ∈ sorted_strings false (elements (list_to_set l : gset string)) <-> c ∈ l.
Proof.
  unfold sorted_strings. by rewrite elem_of_py_sorted, elem_of_elements, elem_of_list_to_set.
Qed.

Lemma elem_of_distinct_sorted field (l : list entry) c :
  c ∈ distinct_sorted field l <-> c ≠ "" ∧ exists e, e ∈ l ∧ field e = Some c.
Proof.
  unfold distinct_sorted. rewrite elem_of_sorted_set, list_elem_of_omap. split.
  - intros (e & He & H). destruct (field e) as [s|] eqn:E; simpl in H; [|done].
    destruct s as [|a s]; simpl in H; [done|]. injection H as <-.
    split; [done|]. by exists e.
  - intros (Hc & e & He & E). exists e. split; [done|]. rewrite E. simpl.
    by destruct c.
Qed.

(** X13: the categories and the subcategories of the sidebar are the
    non-empty values the entries have for these keys, each once, in strictly
    rising order. *)
Theorem sidebar_lists_distinct_values :
  (forall entries, StronglySorted text_asc (categories (sidebar_of entries)))
  ∧ (forall entries, StronglySorted text_asc (subcategories (sidebar_of entries)))
  ∧ (forall entries c,
       c ∈ categories (sidebar_of entries)
       <-> c ≠ "" ∧ exists e, e ∈ entries ∧ category e = Some c)
  ∧ (forall entries s,
       s ∈ subcategories (sidebar_of entries)
       <-> s ≠ "" ∧ exists e, e ∈ entries ∧ subcategory e = Some s).
Proof.
  repeat apply conj.
  - intros l. apply sorted_set_asc.
  - intros l. apply sorted_set_asc.
  - intros l c. apply elem_of_distinct_sorted.
  - intros l c. apply elem_of_distinct_sorted.
Qed.

(** [e] puts the subcategory [s] under the category [c]. *)
Lemma subcats_step_lookup acc e c :
  default [] (subcats_step acc e !! c)
  = default [] (acc !! c)
    ++ (if decide (category e = Some c ∧ c ≠ "" ∧ default "" (subcategory e) ≠ "")
        then [default "" (subcategory e)] else []).
Proof.
  unfold subcats_step.
  destruct (PyStr.truthy (default "" (category e))) eqn:Hc; simpl.
  - destruct (PyStr.truthy (default "" (subcategory e))) eqn:Hs; simpl.
    + apply truthy_iff in Hc, Hs.
      destruct (decide (default "" (category e) = c)) as [<-|Hne].
      * rewrite lookup_insert_eq. simpl. rewrite decide_True; [done|].
        split; [|done]. by apply default_eq_nonempty.
      * rewrite lookup_insert_ne by done. rewrite decide_False; [by rewrite app_nil_r|].
        intros (H & _ & _). rewrite H in Hne. done.
    + rewrite decide_False; [by rewrite app_nil_r|].
      intros (_ & _ & H). apply truthy_iff in H. congruence.
  - rewrite decide_False; [by rewrite app_nil_r|].
    intros (H & Hne & _). rewrite H in Hc. simpl in Hc.
    apply truthy_iff in Hne. congruence.
Qed.

Lemma subcats_foldl_elem (l : list entry) acc c s :
  s ∈ default [] (foldl subcats_step acc l !! c)
  <-> s ∈ default [] (acc !! c)
      ∨ (c ≠ "" ∧ s ≠ "" ∧ exists e, e ∈ l ∧ category e = Some c ∧ subcategory e = Some s).
Proof.
  revert acc. induction l as [|e l IH]; intros acc; simpl.
  - split; [by left|]. intros [?|(_ & _ & e & He & _)]; [done|]. by apply elem_of_nil in He.
  - rewrite IH, subcats_step_lookup, elem_of_app. split.
    + intros [[?|Hs]|(Hc & Hs & e' & He' & H)].
      * by left.
      * right. destruct (decide _) as [(Hcat & Hc & Hsub)|]; [|by apply elem_of_nil in Hs].
        apply list_elem_of_singleton in Hs as ->.
        split; [done|]. split; [done|]. exists e. split; [apply list_elem_of_here|].
        split; [done|]. by apply default_eq_nonempty.
      * right. split; [done|]. split; [done|]. exists e'.
        split; [by apply list_elem_of_further | done].
    + intros [?|(Hc & Hs & e' & [->|He']%elem_of_cons & Hcat & Hsub)].
      * left. by left.
      * left. right. rewrite decide_True.
        -- rewrite Hsub. apply list_elem_of_here.
        -- rewrite Hsub. done.
      * right. split; [done|]. split; [done|]. by exists e'.
Qed.

Lemma subcats_step_key acc e c :
  is_Some (subcats_step acc e !! c) ->
  default [] (subcats_step acc e !! c) ≠ [] ∨ is_Some (acc !! c).
Proof.
  unfold subcats_step.
  destruct (PyStr.truthy _ && PyStr.truthy _); [|by right].
  destruct (decide (default "" (category e) = c)) as [<-|Hne].
  - rewrite lookup_insert_eq. simpl. left. by destruct (default [] _).
  - rewrite lookup_insert_ne by done. by right.
Qed.

(** The lists of the dict are never empty. *)
Lemma subcats_foldl_nonempty (l : list entry) acc c :
  (forall c', is_Some (acc !! c') -> default [] (acc !! c') ≠ []) ->
  is_Some (foldl subcats_step acc l !! c) ->
  default [] (foldl subcats_step acc l !! c) ≠ [].
Proof.
  revert acc. induction l as [|e l IH]; intros acc Hacc; simpl; [apply Hacc|].
  apply IH. intros c' Hc'.
  destruct (subcats_step_key acc e c' Hc') as [?|Hin]; [done|].
  rewrite subcats_step_lookup. specialize (Hacc c' Hin).
  by destruct (default [] (acc !! c')).
Qed.

(** X14: the dict of the sidebar gives for a category the non-empty
    subcategories that entries of this category have, each once, in strictly
    rising order; a category is a key only if it has such a subcategory; the
    keys are among the categories of the sidebar and what is listed under
    them among its subcategories. *)
Theorem sidebar_subcats_by_category entries c subs :
  category_subcats (sidebar_of entries) !! c = Some subs ->
  StronglySorted text_asc subs
  ∧ subs ≠ []
  ∧ (forall s, s ∈ subs
       <-> c ≠ "" ∧ s ≠ ""
           ∧ exists e, e ∈ entries ∧ category e = Some c ∧ subcategory e = Some s)
  ∧ c ∈ categories (sidebar_of entries)
  ∧ subs ⊆ subcategories (sidebar_of entries).
Proof.
  simpl. rewrite lookup_fmap. intros H.
  destruct (foldl subcats_step ∅ entries !! c) as [raw|] eqn:Hraw; simpl in H; [|done].
  injection H as <-.
  assert (forall s, s ∈ raw
            <-> c ≠ "" ∧ s ≠ ""
                ∧ exists e, e ∈ entries ∧ category e = Some c ∧ subcategory e = Some s)
    as Hmem.
  { intros s. pose proof (subcats_foldl_elem entries ∅ c s) as Hs.
    rewrite Hraw, lookup_empty in Hs. simpl in Hs. rewrite Hs.
    split; [intros [H|H]; [by apply elem_of_nil in H | done] | by right]. }
  assert (raw ≠ []) as Hne.
  { pose proof (subcats_foldl_nonempty entries ∅ c) as Hn. rewrite Hraw in Hn.
    apply Hn; [|done]. intros c'. rewrite lookup_empty. by intros [? ?]. }
  split; [apply sorted_set_asc|]. split.
  { destruct raw as [|s raw]; [done|]. intros Hnil.
    assert (s ∈ sorted_strings false (elements (list_to_set (s :: raw) : gset string))) as Hs
      by (apply elem_of_sorted_set, list_elem_of_here).
    rewrite Hnil in Hs. by apply elem_of_nil in Hs. }
  split; [intros s; by rewrite elem_of_sorted_set|].
  split.
  - destruct raw as [|s raw]; [done|].
    destruct (proj1 (Hmem s) (list_elem_of_here _ _)) as (Hc & _ & e & He & Hcat & _).
    apply elem_of_distinct_sorted. split; [done|]. by exists e.
  - intros s Hs%elem_of_sorted_set%Hmem. destruct Hs as (_ & Hs & e & He & _ & Hsub).
    apply elem_of_distinct_sorted. split; [done|]. by exists e.
Qed.

Lemma sidebar_subcats_by_category_witness :
  let a := Entry None None None None (Some "Art") (Some "Nature") None None None None
             None None None None in
  exists subs, category_subcats (sidebar_of [a; a]) !! "Art" = Some subs
    ∧ StronglySorted text_asc subs ∧ subs ≠ [].
Proof.
  intros a. exists ["Nature"].
  assert (category_subcats (sidebar_of [a; a]) !! "Art" = Some ["Nature"]) as H
    by (vm_compute; reflexivity).
  split; [exact H|].
  destruct (sidebar_subcats_by_category [a; a] "Art" ["Nature"] H) as (Hs & Hne & _).
  split; [exact Hs | exact Hne].
Defined.

(** ** Searching and the pages of a category *)

Lemma lower_app a b : PyStr.lower (a +:+ b) = PyStr.lower a +:+ PyStr.lower b.
Proof. induction a as [|c a IH]; simpl; [done|]. by rewrite IH. Qed.

Lemma startswith_app q a b :
  PyText.startswith q a = true -> PyText.startswith q (a +:+ b) = true.
Proof.
  revert a. induction q as [|c q IH]; intros a; [by destruct a|].
  destruct a as [|d a]; simpl; [done|].
  rewrite !andb_true_iff. intros [? ?]. split; [done|]. by apply IH.
Qed.

Lemma contains_app_l q a b :
  PyText.contains q a = true -> PyText.contains q (a +:+ b) = true.
Proof.
  induction a as [|c a IH]; simpl.
  - rewrite orb_false_r. intros H. destruct q; [|done]. by destruct b.
  - rewrite !orb_true_iff. intros [H|H].
    + left. by apply (startswith_app q (String c a) b).
    + right. by apply IH.
Qed.

Lemma contains_app_r q a b :
  PyText.contains q b = true -> PyText.contains q (a +:+ b) = true.
Proof.
  intros H. induction a as [|c a IH]; simpl; [done|].
  rewrite IH. apply orb_true_r.
Qed.

Lemma contains_lower_join q (ts : list string) t :
  t ∈ ts -> PyText.contains q (PyStr.lower t) = true ->
  PyText.contains q (PyStr.lower (PyStr.join " " ts)) = true.
Proof.
  intros Ht Hq. induction ts as [|t0 ts IH]; [by apply elem_of_nil in Ht|].
  destruct ts as [|t1 ts].
  - apply list_elem_of_singleton in Ht as ->. done.
  - change (PyStr.join " " (t0 :: t1 :: ts))
      with (t0 +:+ String " " (PyStr.join " " (t1 :: ts))).
    rewrite lower_app. apply elem_of_cons in Ht as [->|Ht].
    + by apply contains_app_l.
    + apply contains_app_r.
      change (String " " ?x) with (" " +:+ x). rewrite lower_app.
      apply contains_app_r. by apply IH.
Qed.

Lemma matches_searched_text q e text :
  searched_text e text -> PyText.contains q (PyStr.lower text) = true ->
  Search.matches q e = true.
Proof.
  intros Htext Hq. unfold Search.matches, Search.haystack.
  change (PyStr.join " " [?a; ?b; ?c; ?d; ?x; ?y])
    with (a +:+ " " +:+ b +:+ " " +:+ c +:+ " " +:+ d +:+ " " +:+ x +:+ " " +:+ y).
  rewrite !lower_app.
  destruct Htext as [H|[H|[H|[H|[H|H]]]]]; try rewrite H; simpl default.
  - by apply contains_app_l.
  - do 2 apply contains_app_r. by apply contains_app_l.
  - do 4 apply contains_app_r. by apply contains_app_l.
  - do 6 apply contains_app_r. by apply contains_app_l.
  - do 8 apply contains_app_r. by apply contains_app_l.
  - do 10 apply contains_app_r. by eapply contains_lower_join.
Qed.

(** X15: a search without a query, or with one of blanks only, redirects to
    the gallery; otherwise the page lists, the later date first, the loaded
    entries whose lowercased text holds the lowercased query, and among
    them every entry that has the query, without regard to case, inside its
    title, notes, mood, category, subcategory or one of its tags; the file
    is never changed. *)
Theorem search_finds_by_any_text req f :
  let query := PyStr.strip (default "" (args req !! "q")) in
  (search req f).2 = f
  ∧ (query = "" -> search req f = (Sent "index", f))
  ∧ (query ≠ "" ->
     exists shown,
       search req f
       = (Shown "index.html"
            (Listing shown [] (sidebar_of (load f)) None None (Some query)), f)
       ∧ StronglySorted date_desc shown
       ∧ (forall e, e ∈ shown
            <-> e ∈ load f
                ∧ PyText.contains (PyStr.lower query) (Search.haystack e) = true)
       ∧ (forall e text, e ∈ load f -> searched_text e text ->
            PyText.contains (PyStr.lower query) (PyStr.lower text) = true ->
            e ∈ shown)).
Proof.
  intros query. unfold search, mbind, M_bind, load_entries, form_get. fold query.
  destruct query as [|a r] eqn:Hq; simpl negb; cbv iota.
  - split; [done|]. split; [done|]. done.
  - split; [done|]. split; [done|]. intros _.
    eexists. split; [reflexivity|].
    split; [apply (py_sorted_sorted String.ltb date_key true)|].
    assert (forall e, e ∈ py_sorted String.ltb date_key true
                        (filter (fun e => Search.matches (PyStr.lower (String a r)) e = true)
                           (load f))
              <-> e ∈ load f
                  ∧ PyText.contains (PyStr.lower (String a r)) (Search.haystack e) = true)
      as Hmem.
    { intros e. rewrite elem_of_py_sorted, list_elem_of_filter.
      unfold Search.matches. tauto. }
    split; [done|].
    intros e text He Htext Hc. apply Hmem. split; [done|].
    by apply (matches_searched_text _ e text).
Qed.

Lemma search_finds_by_any_text_witness :
  let e := tagged "Art" ["Travel"] in
  let req := Request GET {["q" := " travel "]} ∅ None "2024-03-01" "2024-03-01T00:00:00" in
  backfill e ∈ listed (search req (Json [e])).1.
Proof.
  intros e req.
  destruct (search_finds_by_any_text req (Json [e])) as (_ & _ & H).
  destruct H as (shown & Hs & _ & _ & Hfound); [vm_compute; discriminate|].
  rewrite Hs. simpl.
  apply (Hfound (backfill e) "Travel").
  - simpl. apply list_elem_of_here.
  - unfold searched_text. do 5 right. simpl. apply list_elem_of_here.
  - vm_compute. reflexivity.
Defined.

Lemma sorted_if_any_sorted l : sorted_if_any l = py_sorted String.ltb date_key true l.
Proof. by destruct l. Qed.

(** X16: the page of a category lists, the later date first, the loaded
    entries whose category is the name without regard to case, and the page
    of a subcategory does so for the subcategory; every entry is on the
    page of its category and of its subcategory, so no category or
    subcategory of the sidebar leads to an empty page. *)
Theorem category_pages_list_their_entries :
  (forall name f e,
     e ∈ listed (category_view name f).1
     <-> e ∈ load f ∧ PyStr.lower (default "" (category e)) = PyStr.lower name)
  ∧ (forall name f e,
       e ∈ listed (subcategory_view name f).1
       <-> e ∈ load f ∧ PyStr.lower (default "" (subcategory e)) = PyStr.lower name)
  ∧ (forall name f,
       StronglySorted date_desc (listed (category_view name f).1)
       ∧ StronglySorted date_desc (listed (subcategory_view name f).1)
       ∧ (category_view name f).2 = f ∧ (subcategory_view name f).2 = f)
  ∧ (forall f c, c ∈ categories (sidebar_of (load f)) ->
       listed (category_view c f).1 ≠ [])
  ∧ (forall f s, s ∈ subcategories (sidebar_of (load f)) ->
       listed (subcategory_view s f).1 ≠ []).
Proof.
  assert (forall name f e,
            e ∈ listed (category_view name f).1
            <-> e ∈ load f ∧ PyStr.lower (default "" (category e)) = PyStr.lower name) as Hc.
  { intros name f e. unfold category_view, mbind, M_bind, load_entries. simpl.
    rewrite sorted_if_any_sorted, elem_of_py_sorted, list_elem_of_filter. tauto. }
  assert (forall name f e,
            e ∈ listed (subcategory_view name f).1
            <-> e ∈ load f ∧ PyStr.lower (default "" (subcategory e)) = PyStr.lower name)
    as Hs.
  { intros name f e. unfold subcategory_view, mbind, M_bind, load_entries. simpl.
    rewrite sorted_if_any_sorted, elem_of_py_sorted, list_elem_of_filter. tauto. }
  split; [done|]. split; [done|]. split; [|split].
  - intros name f. unfold category_view, subcategory_view, mbind, M_bind, load_entries.
    simpl. rewrite !sorted_if_any_sorted.
    split; [apply (py_sorted_sorted String.ltb date_key true)|].
    split; [apply (py_sorted_sorted String.ltb date_key true)|]. done.
  - intros f c (_ & e & He & Hcat)%elem_of_distinct_sorted Hnil.
    assert (e ∈ listed (category_view c f).1) as Hin
      by (apply Hc; split; [done|]; by rewrite Hcat).
    rewrite Hnil in Hin. by apply elem_of_nil in Hin.
  - intros f c (_ & e & He & Hsub)%elem_of_distinct_sorted Hnil.
    assert (e ∈ listed (subcategory_view c f).1) as Hin
      by (apply Hs; split; [done|]; by rewrite Hsub).
    rewrite Hnil in Hin. by apply elem_of_nil in Hin.
Qed.

Lemma category_pages_list_their_entries_witness :
  listed (category_view "Art" (Json [tagged "Art" []])).1 ≠ [].
Proof.
  destruct category_pages_list_their_entries as (_ & _ & _ & H & _).
  apply (H (Json [tagged "Art" []]) "Art").
  vm_compute. apply list_elem_of_here.
Defined.

(** ** Dreams and reflections *)

Lemma new_dream_cases req f :
  (new_dream req f).2 = f
  ∨ exists title0 e, method req = POST ∧ form req !! "title" = Some title0
      ∧ new_dream req f = (Sent "dreamboard", Json (load f ++ [e]))
      ∧ id e = Some (next_id (load f)) ∧ title e = Some (PyStr.strip title0)
      ∧ category e = Some "Goals" ∧ tags e = Some ["dream"]
      ∧ all_fields_present e ∧ backfill e = e.
Proof.
  unfold new_dream, mbind, M_bind, load_entries.
  destruct (method req); [by left|].
  destruct (form req !! "title") as [t|]; [|by left].
  right. eexists t, _. do 3 (split; [reflexivity|]).
  unfold all_fields_present. simpl. repeat split; by eexists.
Qed.

(** X17: a dream submitted with a title is saved as a complete entry with
    the next id and the stripped title, and it is then among the entries of
    the dreamboard and among the dream entries of the gallery; without a
    title the form is refused and nothing is saved. *)
Theorem new_dream_reaches_dreamboard :
  (forall req f title0,
     method req = POST -> form req !! "title" = Some title0 ->
     let f' := (new_dream req f).2 in
     exists e, new_dream req f = (Sent "dreamboard", f')
       ∧ load f' = load f ++ [e]
       ∧ id e = Some (next_id (load f)) ∧ title e = Some (PyStr.strip title0)
       ∧ all_fields_present e
       ∧ e ∈ Dreamboard.entries None None (load f')
       ∧ e ∈ compute_dream_entries (load f'))
  ∧ (forall req f,
       method req = POST -> form req !! "title" = None ->
       new_dream req f = (Refused, f)).
Proof.
  split.
  - intros req f title0 Hm Ht f'.
    destruct (new_dream_cases req f)
      as [Hsame|(t & e & _ & Ht' & Hnew & Hid & Htitle & Hcat & Htags & Hall & Hb)].
    { exfalso. revert Hsame. unfold new_dream, mbind, M_bind, load_entries.
      rewrite Hm, Ht. simpl. intros H. apply (f_equal load) in H.
      rewrite (load_append f _ eq_refl) in H.
      apply (f_equal length) in H. rewrite length_app in H. simpl in H. lia. }
    assert (t = title0) as -> by congruence.
    assert (load f' = load f ++ [e]) as Hload.
    { unfold f'. rewrite Hnew. simpl snd. by apply load_append. }
    assert (e ∈ load f') as He.
    { rewrite Hload. apply elem_of_app. right. apply list_elem_of_here. }
    assert (Dreamboard.is_dream e = true) as Hd.
    { unfold Dreamboard.is_dream, get_or, lower_tags. rewrite Hcat, Htags.
      by vm_compute. }
    exists e. split; [unfold f'; by rewrite Hnew|].
    do 4 (split; [done|]). split.
    + by apply elem_of_dreamboard_entries.
    + apply elem_of_compute_dream_entries. split; [done|].
      by apply dreamboard_is_dream_gallery.
  - intros req f Hm Ht. unfold new_dream, mbind, M_bind, load_entries.
    by rewrite Hm, Ht.
Qed.

Lemma new_dream_reaches_dreamboard_witness :
  let req := Request POST ∅ {["title" := " Sail "]} None "2024-03-01" "2024-03-01T00:00:00" in
  exists e, load (new_dream req Absent).2 = load Absent ++ [e]
    ∧ title e = Some "Sail"
    ∧ e ∈ Dreamboard.entries None None (load (new_dream req Absent).2).
Proof.
  intros req. destruct new_dream_reaches_dreamboard as [H _].
  destruct (H req Absent " Sail ") as (e & _ & Hl & _ & Ht & _ & Hb & _);
    [reflexivity|reflexivity|].
  exists e. split; [exact Hl|]. split; [exact Ht | exact Hb].
Defined.

Lemma reflect_page_shape entries :
  exists shown,
    reflect_page entries = Shown "reflect.html" (ReflectView shown (sidebar_of entries))
    ∧ (length shown <= 30)%nat
    ∧ Forall is_reflection shown
    ∧ shown ⊆ entries
    ∧ StronglySorted date_desc shown.
Proof.
  unfold reflect_page. eexists. split; [reflexivity|].
  split; [rewrite length_take; lia|]. split; [|split].
  - apply Forall_take, Forall_forall.
    by intros e [? _]%elem_of_py_sorted%list_elem_of_filter.
  - intros e He%subseteq_take.
    by apply elem_of_py_sorted, list_elem_of_filter in He as [_ ?].
  - assert (forall l : list entry,
              StronglySorted date_desc l -> StronglySorted date_desc (take 30 l)) as Htake.
    { intros l Hl. rewrite <- (take_drop 30 l) in Hl.
      by apply StronglySorted_app_1_l in Hl. }
    apply Htake, (py_sorted_sorted String.ltb date_key true).
Qed.

(** X18: a reflection is saved only when its notes are not blank: then one
    complete diary entry with the next id, the stripped notes and today's
    date is appended and the handler redirects; a submission with blank
    notes and a plain visit save nothing and show at most thirty diary
    entries of the collection, the later date first. *)
Theorem reflection_needs_notes req f :
  let notes0 := PyStr.strip (default "" (form req !! "notes")) in
  (method req = POST -> notes0 ≠ "" ->
   exists e, daily_reflection req f = (Sent "daily_reflection", Json (load f ++ [e]))
     ∧ load (Json (load f ++ [e])) = load f ++ [e]
     ∧ id e = Some (next_id (load f)) ∧ notes e = Some notes0
     ∧ date e = Some (today req)
     ∧ is_reflection e ∧ all_fields_present e)
  ∧ (method req = GET ∨ notes0 = "" ->
     exists shown,
       daily_reflection req f
       = (Shown "reflect.html" (ReflectView shown (sidebar_of (load f))), f)
       ∧ (length shown <= 30)%nat
       ∧ Forall is_reflection shown
       ∧ shown ⊆ load f
       ∧ StronglySorted date_desc shown).
Proof.
  intros notes0. split.
  - intros Hm Hn. unfold daily_reflection, mbind, M_bind, load_entries, form_get.
    rewrite Hm. fold notes0. rewrite (proj2 (truthy_iff notes0) Hn).
    eexists. split; [reflexivity|]. split; [by apply load_append|].
    unfold all_fields_present, is_reflection. simpl. repeat split; by eexists.
  - intros Hcase.
    destruct (reflect_page_shape (load f)) as (shown & Hpage & H).
    exists shown. split; [|done].
    unfold daily_reflection, mbind, M_bind, load_entries, form_get.
    destruct (method req) eqn:Hm; [by rewrite Hpage|].
    destruct Hcase as [?|Hn]; [done|]. fold notes0. rewrite Hn. simpl.
    by rewrite Hpage.
Qed.

Lemma reflection_needs_notes_witness :
  let req := Request POST ∅ {["notes" := "   "]} None "2024-03-01" "2024-03-01T00:00:00" in
  exists shown,
    daily_reflection req (Json [with_id 3])
    = (Shown "reflect.html" (ReflectView shown (sidebar_of (load (Json [with_id 3])))),
       Json [with_id 3]).
Proof.
  intros req.
  destruct (reflection_needs_notes req (Json [with_id 3])) as [_ H].
  destruct H as (shown & Hs & _); [right; reflexivity|].
  exists shown. exact Hs.
Defined.

Lemma daily_reflection_cases req f :
  (daily_reflection req f).2 = f
  ∨ exists e, (daily_reflection req f).2 = Json (load f ++ [e]) ∧ backfill e = e
      ∧ id e = Some (next_id (load f)).
Proof.
  unfold daily_reflection, mbind, M_bind, load_entries.
  destruct (method req); [by left|].
  destruct (PyStr.truthy _); [|by left].
  right. by eexists.
Qed.

(** X19: the three handlers that create entries never change or drop an
    entry that is there: the collection loaded before is the beginning of
    the collection loaded afterwards, which has at most one entry more. *)
Theorem creating_keeps_existing_entries :
  (forall secure_filename req f,
     load f `prefix_of` load (new_entry secure_filename req f).2
     ∧ (length (load (new_entry secure_filename req f).2) <= S (length (load f)))%nat)
  ∧ (forall req f,
       load f `prefix_of` load (new_dream req f).2
       ∧ (length (load (new_dream req f).2) <= S (length (load f)))%nat)
  ∧ (forall req f,
       load f `prefix_of` load (daily_reflection req f).2
       ∧ (length (load (daily_reflection req f).2) <= S (length (load f)))%nat).
Proof.
  assert (forall f e, backfill e = e ->
            load f `prefix_of` load (Json (load f ++ [e]))
            ∧ (length (load (Json (load f ++ [e]))) <= S (length (load f)))%nat) as Happ.
  { intros f e Hb. rewrite load_append by done. split; [by apply prefix_app_r|].
    rewrite length_app. simpl. lia. }
  split; [|split].
  - intros sf req f.
    destruct (new_entry_file sf req f) as [->|(e & -> & _ & Hb)]; [split; [done|lia]|].
    by apply Happ.
  - intros req f.
    destruct (new_dream_cases req f)
      as [->|(t & e & _ & _ & -> & _ & _ & _ & _ & _ & Hb)]; [split; [done|lia]|].
    by apply Happ.
  - intros req f.
    destruct (daily_reflection_cases req f) as [->|(e & -> & Hb & _)]; [split; [done|lia]|].
    by apply Happ.
Qed.

(** ** The statistics *)

Lemma count_at_cons k k' n counts :
  count_at k ((k', n) :: counts) = if decide (k' = k) then n else count_at k counts.
Proof.
  unfold count_at. simpl. destruct (decide (k' = k)); [done|].
  by destruct (list_find _ counts) as [[? [? ?]]|].
Qed.

Lemma count_at_bump k k' counts :
  count_at k' (Stats.bump k counts)
  = count_at k' counts + (if decide (k' = k) then 1 else 0).
Proof.
  induction counts as [|[k0 n0] counts IH]; simpl.
  - rewrite count_at_cons. unfold count_at. simpl.
    destruct (decide (k = k')), (decide (k' = k)); congruence || lia.
  - destruct (decide (k0 = k)) as [->|Hne]; rewrite !count_at_cons.
    + destruct (decide (k = k')), (decide (k' = k)); congruence || lia.
    + rewrite IH. destruct (decide (k0 = k')), (decide (k' = k)); congruence || lia.
Qed.

Lemma bump_keys k counts :
  (Stats.bump k counts).*1
  = if decide (k ∈ counts.*1) then counts.*1 else counts.*1 ++ [k].
Proof.
  induction counts as [|[k0 n0] counts IH]; [done|].
  cbn [Stats.bump]. destruct (decide (k0 = k)) as [->|Hne]; rewrite !fmap_cons; cbn [fst].
  - rewrite decide_True by apply list_elem_of_here. done.
  - rewrite IH. destruct (decide (k ∈ counts.*1)) as [Hin|Hnin].
    + rewrite decide_True by (by apply list_elem_of_further). done.
    + rewrite decide_False; [done|].
      intros [?|?]%elem_of_cons; [congruence|done].
Qed.

Lemma bump_NoDup k counts : NoDup counts.*1 -> NoDup (Stats.bump k counts).*1.
Proof.
  intros Hnd. rewrite bump_keys. destruct (decide (k ∈ counts.*1)); [done|].
  apply NoDup_app. split; [done|]. split; [|apply NoDup_singleton].
  intros x Hx ->%list_elem_of_singleton. done.
Qed.

Lemma elem_of_bump_keys k k' counts :
  k' ∈ (Stats.bump k counts).*1 <-> k' ∈ counts.*1 ∨ k' = k.
Proof.
  rewrite bump_keys. destruct (decide (k ∈ counts.*1)).
  - split; [by left|]. intros [?|Heq]; [done | by rewrite Heq].
  - rewrite elem_of_app, list_elem_of_singleton. done.
Qed.

(** With every key once, the pairs of the list are its keys with their
    numbers. *)
Lemma elem_of_counts k n counts :
  NoDup counts.*1 -> ((k, n) ∈ counts <-> k ∈ counts.*1 ∧ count_at k counts = n).
Proof.
  induction counts as [|[k0 n0] counts IH]; intros Hnd.
  - split; [intros H; by apply elem_of_nil in H | intros [H _]; by apply elem_of_nil in H].
  - simpl in Hnd. apply NoDup_cons in Hnd as [Hk0 Hnd].
    rewrite count_at_cons, elem_of_cons, (IH Hnd). simpl. rewrite elem_of_cons.
    destruct (decide (k0 = k)) as [->|Hne].
    + split.
      * intros [[= ->]|[Hin _]]; [by split; [left|]|done].
      * intros [_ ->]. by left.
    + split.
      * intros [[= ? ?]|[Hin Hc]]; [congruence|]. split; [by right | done].
      * intros [[?|Hin] Hc]; [congruence|]. right. done.
Qed.

Section Counting.
Variable field : entry -> option string.

Lemma count_step_at counts e k :
  k ≠ "" ->
  count_at k (Stats.count_step field counts e)
  = count_at k counts + (if decide (field e = Some k) then 1 else 0).
Proof.
  intros Hk. unfold Stats.count_step.
  destruct (PyStr.truthy (default "" (field e))) eqn:Hv.
  - rewrite count_at_bump. apply truthy_iff in Hv.
    destruct (decide (k = default "" (field e))) as [->|Hne].
    + rewrite decide_True; [done|]. by apply default_eq_nonempty.
    + rewrite decide_False; [done|]. intros H. rewrite H in Hne. done.
  - rewrite decide_False; [lia|]. intros H. rewrite H in Hv. simpl in Hv.
    apply truthy_iff in Hk. congruence.
Qed.

Lemma count_step_keys counts e k :
  k ∈ (Stats.count_step field counts e).*1
  <-> k ∈ counts.*1 ∨ (k ≠ "" ∧ field e = Some k).
Proof.
  unfold Stats.count_step. destruct (PyStr.truthy (default "" (field e))) eqn:Hv.
  - rewrite elem_of_bump_keys. apply truthy_iff in Hv. apply or_iff_compat_l. split.
    + intros ->. split; [done|]. by apply default_eq_nonempty.
    + intros [Hk H]. by rewrite H.
  - split; [by left|]. intros [?|[Hk H]]; [done|].
    rewrite H in Hv. simpl in Hv. apply truthy_iff in Hk. congruence.
Qed.

Lemma count_foldl_at (l : list entry) counts k :
  k ≠ "" ->
  count_at k (foldl (Stats.count_step field) counts l) = count_at k counts + count_of field k l.
Proof.
  intros Hk. revert counts. induction l as [|e l IH]; intros counts; simpl.
  - unfold count_of. simpl. lia.
  - rewrite IH, count_step_at by done. unfold count_of. rewrite filter_cons.
    destruct (decide (field e = Some k)); simpl length; lia.
Qed.

Lemma count_foldl_keys (l : list entry) counts k :
  k ∈ (foldl (Stats.count_step field) counts l).*1
  <-> k ∈ counts.*1 ∨ (k ≠ "" ∧ exists e, e ∈ l ∧ field e = Some k).
Proof.
  revert counts. induction l as [|e l IH]; intros counts; simpl.
  - split; [by left|]. intros [?|(_ & e & He & _)]; [done|]. by apply elem_of_nil in He.
  - rewrite IH, count_step_keys. split.
    + intros [[?|[? ?]]|(? & e' & ? & ?)].
      * by left.
      * right. split; [done|]. exists e. split; [apply list_elem_of_here | done].
      * right. split; [done|]. exists e'. split; [by apply list_elem_of_further | done].
    + intros [?|(? & e' & [->|?]%elem_of_cons & ?)].
      * left. by left.
      * left. by right.
      * right. split; [done|]. by exists e'.
Qed.

Lemma count_foldl_NoDup (l : list entry) counts :
  NoDup counts.*1 -> NoDup (foldl (Stats.count_step field) counts l).*1.
Proof.
  revert counts. induction l as [|e l IH]; intros counts Hnd; simpl; [done|].
  apply IH. unfold Stats.count_step. destruct (PyStr.truthy _); [by apply bump_NoDup | done].
Qed.

Lemma count_of_pos k (l : list entry) :
  0 < count_of field k l <-> exists e, e ∈ l ∧ field e = Some k.
Proof.
  unfold count_of. split.
  - intros H. destruct (filter _ l) as [|e r] eqn:E; [simpl in H; lia|].
    assert (e ∈ filter (fun e => field e = Some k) l) as He
      by (rewrite E; apply list_elem_of_here).
    apply list_elem_of_filter in He as [? ?]. by exists e.
  - intros (e & He & Hf).
    assert (e ∈ filter (fun e => field e = Some k) l) as Hin
      by (by apply list_elem_of_filter).
    destruct (filter _ l); [by apply elem_of_nil in Hin | simpl; lia].
Qed.

(** What the counting loop leaves: every non-empty value once, with the
    number of the entries that have it. *)
Lemma count_by_spec (l : list entry) k n :
  (k, n) ∈ Stats.count_by field l
  <-> k ≠ "" ∧ 0 < n ∧ n = count_of field k l.
Proof.
  unfold Stats.count_by.
  rewrite elem_of_counts by (apply count_foldl_NoDup; constructor).
  rewrite count_foldl_keys. simpl. split.
  - intros [[H|[Hk Hex]] Hn]; [by apply elem_of_nil in H|].
    rewrite count_foldl_at in Hn by done. unfold count_at in Hn. simpl in Hn.
    split; [done|]. split; [|lia]. apply count_of_pos in Hex. lia.
  - intros (Hk & Hpos & ->). split.
    + right. split; [done|]. by apply count_of_pos.
    + rewrite count_foldl_at by done. unfold count_at. simpl. lia.
Qed.

Lemma count_by_NoDup (l : list entry) : NoDup (Stats.count_by field l).*1.
Proof. unfold Stats.count_by. apply count_foldl_NoDup. constructor. Qed.
End Counting.

Lemma top_spec (counts : list (string * Z)) :
  Stats.top counts ≡ₚ counts ∧ StronglySorted count_desc (Stats.top counts).
Proof.
  unfold Stats.top. split; [apply py_sorted_perm|].
  eapply StronglySorted_weaken; [|apply (py_sorted_sorted Z.ltb snd true)].
  intros a b _ _. unfold key_le, rev_lt, count_desc. by rewrite Z.ltb_ge.
Qed.

Lemma top_count_by field (l : list entry) :
  NoDup (Stats.top (Stats.count_by field l)).*1
  ∧ (forall k n, (k, n) ∈ Stats.top (Stats.count_by field l)
        <-> k ≠ "" ∧ 0 < n ∧ n = count_of field k l)
  ∧ StronglySorted count_desc (Stats.top (Stats.count_by field l)).
Proof.
  destruct (top_spec (Stats.count_by field l)) as [Hperm Hsorted].
  split; [rewrite Hperm; apply count_by_NoDup|]. split; [|done].
  intros k n. rewrite Hperm. apply count_by_spec.
Qed.

(** X20: the statistics count every entry of the collection; each non-empty
    category, and each non-empty mood, is listed once with the number of
    the entries that have it, the greater number first; the count of the
    year is never above the total; the file is left as it is. *)
Theorem stats_counts_each_value_once days_until current_year f :
  exists v,
    stats days_until current_year f = (Shown "stats.html" v, f)
    ∧ Stats.total_entries v = length (load f)
    ∧ Stats.this_year_count v
      = length (filter (fun e => Stats.in_year current_year e = true) (load f))
    ∧ (Stats.this_year_count v <= Stats.total_entries v)%nat
    ∧ NoDup (Stats.top_categories v).*1
    ∧ (forall k n, (k, n) ∈ Stats.top_categories v
          <-> k ≠ "" ∧ 0 < n ∧ n = count_of category k (load f))
    ∧ StronglySorted count_desc (Stats.top_categories v)
    ∧ NoDup (Stats.top_moods v).*1
    ∧ (forall k n, (k, n) ∈ Stats.top_moods v
          <-> k ≠ "" ∧ 0 < n ∧ n = count_of mood k (load f))
    ∧ StronglySorted count_desc (Stats.top_moods v).
Proof.
  unfold stats, mbind, M_bind, load_entries. eexists. split; [reflexivity|]. simpl.
  destruct (top_count_by category (load f)) as (Hc1 & Hc2 & Hc3).
  destruct (top_count_by mood (load f)) as (Hm1 & Hm2 & Hm3).
  split; [done|]. split; [done|].
  split; [apply length_filter|]. done.
Qed.

Section Upcoming.
Variable days_until : string -> option Z.

Lemma elem_of_upcoming_pairs (l : list entry) d e :
  (d, e) ∈ upcoming_pairs days_until l
  <-> e ∈ l ∧ due_in days_until e d ∧ 0 ≤ d ≤ 60.
Proof.
  unfold upcoming_pairs, due_in. rewrite list_elem_of_omap. split.
  - intros (e' & He' & H).
    destruct (PyStr.truthy (get_or (dream_target_date e') "")) eqn:Ht; simpl in H; [|done].
    destruct (days_until (get_or (dream_target_date e') "")) as [d'|] eqn:Hd;
      simpl in H; [|done].
    destruct ((0 <=? d') && (d' <=? 60)) eqn:Hr; [|done].
    injection H as <- <-. apply andb_true_iff in Hr as [?%Z.leb_le ?%Z.leb_le].
    split; [done|]. split; [|lia]. split; [by apply truthy_iff | done].
  - intros (He & [Ht Hd] & Hr). exists e. split; [done|].
    rewrite (proj2 (truthy_iff _) Ht). simpl. rewrite Hd. simpl.
    by rewrite (proj2 (Z.leb_le 0 d)), (proj2 (Z.leb_le d 60)) by lia.
Qed.

(** X21: the upcoming entries of the statistics are the loaded entries
    whose target date is given, is read by the library as a date, and lies
    today or at most sixty days ahead; they come with the nearer date
    first. *)
Theorem stats_upcoming_within_sixty_days current_year f :
  exists v,
    stats days_until current_year f = (Shown "stats.html" v, f)
    ∧ (forall e, e ∈ Stats.upcoming_entries v
          <-> e ∈ load f ∧ exists d, due_in days_until e d ∧ 0 ≤ d ≤ 60)
    ∧ StronglySorted (due_before days_until) (Stats.upcoming_entries v).
Proof.
  unfold stats, mbind, M_bind, load_entries. eexists. split; [reflexivity|]. simpl.
  split.
  - intros e. rewrite list_elem_of_fmap. split.
    + intros ([d e'] & -> & H%elem_of_py_sorted%elem_of_upcoming_pairs).
      simpl. destruct H as (? & ? & ?). split; [done|]. by exists d.
    + intros (He & d & Hd & Hr). exists (d, e). split; [done|].
      by apply elem_of_py_sorted, elem_of_upcoming_pairs.
  - apply (StronglySorted_fmap snd
             (fun p q => due_in days_until p.2 p.1 ∧ due_in days_until q.2 q.1 ∧ p.1 ≤ q.1)).
    { intros [da a] [db b] (Ha & Hb & Hle). by exists da, db. }
    eapply StronglySorted_weaken; [|apply (py_sorted_sorted Z.ltb fst false)].
    intros [da a] [db b] Ha Hb Hle.
    apply elem_of_py_sorted, elem_of_upcoming_pairs in Ha as (_ & Ha & _).
    apply elem_of_py_sorted, elem_of_upcoming_pairs in Hb as (_ & Hb & _).
    unfold key_le, rev_lt in Hle. simpl in *. apply Z.ltb_ge in Hle. done.
Qed.
End Upcoming.

(** ** More on the timeline *)

(** X22: the timeline is built exactly when every entry it uses, those with
    a date of length 7 and more, has at [date[5:7]] a text that [int] reads
    and [calendar.month_name] has a place for; one entry without such a
    month makes the page of all entries fail with a server error; the file
    is never changed. *)
Theorem timeline_needs_readable_months :
  (forall scoped_entries,
     is_Some (Timeline.timeline_years scoped_entries) <-> months_readable scoped_entries)
  ∧ (forall req f, (timeline req f).2 = f)
  ∧ (forall req f, args req !! "category" = None ->
       ((timeline req f).1 = ServerError <-> ¬ months_readable (load f))).
Proof.
  split; [apply timeline_years_is_Some|]. split.
  - intros req f. unfold timeline, mbind, M_bind, load_entries.
    by destruct (Timeline.timeline_years _).
  - intros req f Hcat. rewrite <- timeline_years_is_Some.
    unfold timeline, mbind, M_bind, load_entries. rewrite Hcat.
    destruct (Timeline.timeline_years (load f)) as [t|]; simpl.
    + split; [done|]. intros H. destruct H. by eexists.
    + split; [|done]. intros _ [? ?]. done.
Qed.

Lemma timeline_needs_readable_months_witness :
  (timeline (Request GET ∅ ∅ None "2024-03-01" "2024-03-01T00:00:00")
     (Json [dated 1 "2024-03-01"; dated 2 "2024-xx-01"])).1 = ServerError.
Proof.
  destruct timeline_needs_readable_months as (_ & _ & H).
  apply H; [reflexivity|].
  intros Hr. specialize (Hr (backfill (dated 2 "2024-xx-01"))).
  destruct Hr as [x Hx].
  - simpl. apply list_elem_of_further, list_elem_of_here.
  - reflexivity.
  - vm_compute in Hx. discriminate Hx.
Defined.

(** What a timeline that was built holds, whatever the months are. *)
Lemma timeline_blocks l t :
  Timeline.timeline_years l = Some t ->
  let g := Timeline.group (Timeline.dated_entries l) in
  Timeline.year <$> t = Timeline.keys_desc g
  ∧ forall yb, yb ∈ t ->
      Timeline.month <$> Timeline.months yb
      = Timeline.keys_desc (Timeline.at_year g (Timeline.year yb))
      ∧ forall mb, mb ∈ Timeline.months yb ->
          Timeline.entries mb
          = filter (in_block (Timeline.year yb) (Timeline.month mb))
              (Timeline.dated_entries l).
Proof.
  intros Ht g. unfold Timeline.timeline_years in Ht. cbv zeta in Ht.
  fold g in Ht. apply mapM_Some in Ht. split.
  - eapply Forall2_fmap_eq; [exact Ht|].
    intros y yb Hyb. by apply year_of_blocks_Some in Hyb as [? _].
  - intros yb Hyb.
    destruct (Forall2_elem_of_r _ _ _ _ Ht Hyb) as (y & _ & Hy).
    apply year_of_blocks_Some in Hy as [<- Hblocks]. split.
    + eapply Forall2_fmap_eq; [exact Hblocks|].
      intros m mb Hmb. by apply block_of_Some in Hmb as [? _].
    + intros mb Hmb.
      destruct (Forall2_elem_of_r _ _ _ _ Hblocks Hmb) as (m & _ & Hblock).
      apply block_of_Some in Hblock as (<- & -> & _).
      unfold g. apply group_entries.
Qed.

(** X23: in a timeline that was built no year is without a month and no
    month without an entry, and every entry with a date of length 7 and
    more is in one block and in no other: the one of its year and its
    month. *)
Theorem timeline_blocks_partition scoped_entries timeline_years :
  Timeline.timeline_years scoped_entries = Some timeline_years ->
  (forall yb, yb ∈ timeline_years -> Timeline.months yb ≠ [])
  ∧ (forall yb mb, yb ∈ timeline_years -> mb ∈ Timeline.months yb ->
       Timeline.entries mb ≠ [])
  ∧ (forall e, e ∈ scoped_entries -> Timeline.long_date e = true ->
       exists yb mb, yb ∈ timeline_years ∧ mb ∈ Timeline.months yb
         ∧ e ∈ Timeline.entries mb)
  ∧ (forall yb mb e, yb ∈ timeline_years -> mb ∈ Timeline.months yb ->
       e ∈ Timeline.entries mb ->
       e ∈ scoped_entries ∧ Timeline.long_date e = true
       ∧ Timeline.year yb = Timeline.year_of e ∧ Timeline.month mb = Timeline.month_of e)
  ∧ NoDup (Timeline.year <$> timeline_years)
  ∧ (forall yb, yb ∈ timeline_years -> NoDup (Timeline.month <$> Timeline.months yb)).
Proof.
  intros Ht. destruct (timeline_blocks _ _ Ht) as [Hyears Hblocks].
  set (g := Timeline.group (Timeline.dated_entries scoped_entries)) in *.
  assert (forall (V : Type) (d : gmap string V), NoDup (Timeline.keys_desc d)) as Hnd.
  { intros V d. unfold Timeline.keys_desc, sorted_strings. rewrite py_sorted_perm.
    apply NoDup_fst_map_to_list. }
  assert (forall yb mb, yb ∈ timeline_years -> mb ∈ Timeline.months yb ->
            exists e, e ∈ Timeline.dated_entries scoped_entries
              ∧ in_block (Timeline.year yb) (Timeline.month mb) e) as Hsome.
  { intros yb mb Hyb Hmb. destruct (Hblocks yb Hyb) as [Hms _].
    assert (Timeline.month mb
            ∈ Timeline.keys_desc (Timeline.at_year g (Timeline.year yb))) as Hm.
    { rewrite <- Hms. apply list_elem_of_fmap. by exists mb. }
    by apply elem_of_keys_desc, group_months in Hm. }
  repeat apply conj.
  - intros yb Hyb Hnil. destruct (Hblocks yb Hyb) as [Hms _].
    assert (Timeline.year yb ∈ Timeline.keys_desc g) as Hy.
    { rewrite <- Hyears. apply list_elem_of_fmap. by exists yb. }
    apply elem_of_keys_desc, group_years in Hy as (e & He & Hlong & Hy).
    assert (Timeline.month_of e ∈ Timeline.keys_desc (Timeline.at_year g (Timeline.year yb)))
      as Hm by (apply elem_of_keys_desc, group_months; by exists e).
    rewrite <- Hms, Hnil in Hm. by apply elem_of_nil in Hm.
  - intros yb mb Hyb Hmb Hnil. destruct (Hblocks yb Hyb) as [_ Hes].
    destruct (Hsome yb mb Hyb Hmb) as (e & He & Hb).
    assert (e ∈ Timeline.entries mb) as Hin
      by (rewrite (Hes mb Hmb); by apply list_elem_of_filter).
    rewrite Hnil in Hin. by apply elem_of_nil in Hin.
  - intros e He Hlong.
    assert (e ∈ Timeline.dated_entries scoped_entries) as Hd
      by (apply elem_of_dated_entries; split; [done | by apply long_date_has_date]).
    assert (Timeline.year_of e ∈ Timeline.year <$> timeline_years) as Hy.
    { rewrite Hyears. apply elem_of_keys_desc, group_years. by exists e. }
    apply list_elem_of_fmap in Hy as (yb & Hy & Hyb).
    destruct (Hblocks yb Hyb) as [Hms Hes].
    assert (Timeline.month_of e ∈ Timeline.month <$> Timeline.months yb) as Hm.
    { rewrite Hms. apply elem_of_keys_desc, group_months. exists e.
      split; [done|]. by split. }
    apply list_elem_of_fmap in Hm as (mb & Hm & Hmb).
    exists yb, mb. split; [done|]. split; [done|].
    rewrite (Hes mb Hmb). apply list_elem_of_filter. split; [|done].
    split; [done|]. by split.
  - intros yb mb e Hyb Hmb He. destruct (Hblocks yb Hyb) as [_ Hes].
    rewrite (Hes mb Hmb) in He. apply list_elem_of_filter in He as [(? & ? & ?) Hd].
    apply elem_of_dated_entries in Hd as [? _]. done.
  - rewrite Hyears. apply Hnd.
  - intros yb Hyb. destruct (Hblocks yb Hyb) as [-> _]. apply Hnd.
Qed.

Lemma timeline_blocks_partition_witness :
  exists yb mb,
    yb ∈ [Timeline.YearBlock "2024"
            [Timeline.MonthBlock "03" "March" [dated 1 "2024-03-01"]]]
    ∧ mb ∈ Timeline.months yb ∧ dated 1 "2024-03-01" ∈ Timeline.entries mb.
Proof.
  destruct (timeline_blocks_partition [dated 1 "2024-03-01"]
              [Timeline.YearBlock "2024"
                 [Timeline.MonthBlock "03" "March" [dated 1 "2024-03-01"]]])
    as (_ & _ & H & _); [vm_compute; reflexivity|].
  apply (H (dated 1 "2024-03-01")); [apply list_elem_of_here | reflexivity].
Defined.

(** X24: the dream [new_dream] saves is on the milestone page exactly when
    the submitted progress is a text that [int] reads as a number of 80 and
    more: an empty or unreadable progress counts as 0. *)
Theorem new_dream_is_milestone_by_progress req f title0 :
  method req = POST -> form req !! "title" = Some title0 ->
  exists e, load (new_dream req f).2 = load f ++ [e]
    ∧ Milestones.prog e = default 0 (PyStr.int (default "" (form req !! "dream_progress")))
    ∧ (e ∈ Milestones.entries (load (new_dream req f).2)
       <-> 80 ≤ default 0 (PyStr.int (default "" (form req !! "dream_progress")))).
Proof.
  intros Hm Ht.
  unfold new_dream, mbind, M_bind, load_entries. rewrite Hm, Ht.
  eexists. simpl snd. split; [by apply load_append|].
  set (e := Entry _ _ _ _ _ _ _ _ _ _ _ _ _ _).
  assert (Milestones.prog e
          = default 0 (PyStr.int (default "" (form req !! "dream_progress")))) as Hp.
  { unfold Milestones.prog, Milestones.prog_raw. simpl. unfold form_get.
    destruct (default "" (form req !! "dream_progress")); reflexivity. }
  split; [done|].
  rewrite (load_append f e eq_refl). unfold Milestones.entries.
  rewrite elem_of_py_sorted, list_elem_of_filter, is_milestone_iff, Hp. split.
  - intros [[?|(t & Ht' & Hl)] _]; [done|].
    simpl in Ht'. apply list_elem_of_singleton in Ht' as ->. by vm_compute in Hl.
  - intros H. split; [by left|]. apply elem_of_app. right. apply list_elem_of_here.
Qed.

Lemma new_dream_is_milestone_by_progress_witness :
  let req := Request POST ∅ {["title" := "Sail"; "dream_progress" := " 85 "]} None
               "2024-03-01" "2024-03-01T00:00:00" in
  exists e, load (new_dream req Absent).2 = load Absent ++ [e] ∧ Milestones.prog e = 85.
Proof.
  intros req.
  destruct (new_dream_is_milestone_by_progress req Absent "Sail") as (e & Hl & Hp & _);
    [reflexivity|reflexivity|].
  exists e. split; [exact Hl | exact Hp].
Defined.
